(** * InkyPi stock plugin: the chart pipeline of [plugins/stock/stock.py]

    A shallow embedding of [Stock.map_range], [Stock.get_stock_data] and
    [Stock.generate_image], and the properties of the split-colour chart.

    Numbers.  The plugin computes with Python ints and floats.  Both are
    embedded in [Q]: integer layout values through [inject_Z], prices and
    pixel coordinates as exact rationals, so rounding of binary floats is
    not part of the model.  Python's [==] on numbers is [Qeq_bool], [<=] is
    [Qle_bool]; true division [/] raises [ZeroDivisionError] on a zero
    divisor and is therefore partial ([pdiv]).

    Effects.  Everything that may raise lives in the [result] monad.  The
    canvas ([ImageDraw]) is a list of drawing primitives in call order.
    Pillow, yfinance and the clock are outside the plugin: the record
    [World] holds what they answer, and the model keeps the calls made on
    them, not their implementation. *)

From Stdlib Require Import QArith Qround Qminmax ZArith List String Lia Lqa Bool.
Import ListNotations.
Open Scope Q_scope.

(** ** Exceptions and the result monad *)

Inductive PyError : Type :=
| ZeroDivisionError
| ValueError
| IndexError.

Inductive result (A : Type) : Type :=
| Ok (a : A)
| Err (e : PyError).
Arguments Ok {A} a.
Arguments Err {A} e.

Definition bind {A B : Type} (m : result A) (k : A -> result B) : result B :=
  match m with
  | Ok a => k a
  | Err e => Err e
  end.

Notation "x <- m ;; k" := (bind m (fun x => k))
  (at level 61, m at next level, right associativity).

(** ** Python number primitives *)

(** [a < b]. *)
Definition Qlt_bool (a b : Q) : bool := negb (Qle_bool b a).

(** [a / b]: true division. *)
Definition pdiv (a b : Q) : result Q :=
  if Qeq_bool b 0 then Err ZeroDivisionError else Ok (a / b).

(** [int(x)]: truncation towards zero. *)
Definition py_int (x : Q) : Z :=
  if Qle_bool 0 x then Qfloor x else Qceiling x.

(** [min(l)] and [max(l)] of a list; [ValueError] on the empty list.  The
    builtin keeps the first of equal candidates: it replaces the running
    value only on a strict comparison. *)
Definition py_min2 (a b : Q) : Q := if Qlt_bool b a then b else a.
Definition py_max2 (a b : Q) : Q := if Qlt_bool a b then b else a.

Definition py_min (l : list Q) : result Q :=
  match l with
  | [] => Err ValueError
  | x :: tl => Ok (fold_left py_min2 tl x)
  end.

Definition py_max (l : list Q) : result Q :=
  match l with
  | [] => Err ValueError
  | x :: tl => Ok (fold_left py_max2 tl x)
  end.

(** ** [Stock.map_range] (stock.py, lines 61-64) *)

Definition map_range (value in_min in_max out_min out_max : Q) : result Q :=
  if Qeq_bool in_max in_min then
    pdiv (out_min + out_max) 2
  else
    q <- pdiv ((value - in_min) * (out_max - out_min)) (in_max - in_min) ;;
    Ok (q + out_min).

(** ** The canvas: colours, fonts, text and drawing primitives *)

Definition Color : Type := (Z * Z * Z)%type.

Definition c_bg : Color := (255, 255, 255)%Z.
Definition c_text_main : Color := (0, 0, 0)%Z.
Definition c_dim : Color := (0, 0, 0)%Z.
Definition c_grid : Color := (0, 0, 255)%Z.
Definition c_up : Color := (0, 255, 0)%Z.
Definition c_down : Color := (255, 0, 0)%Z.

Inductive Font : Type :=
| TrueType (path : string) (size : Z)
| DefaultFont.

(** An f-string: literal text and formatted numbers, in order. *)
Inductive FPiece : Type :=
| Lit (s : string)
| Num (spec : string) (v : Q).

Definition Point : Type := (Q * Q)%type.

Inductive DrawPrimitive : Type :=
| DrawText (xy : Point) (text : list FPiece) (fill : Color) (font : Font)
| DrawLine (p1 p2 : Point) (fill : Color) (width : Z)
| DrawEllipse (bbox : Q * Q * Q * Q) (fill : Color).

(** [Image.new("RGB", size, color)] followed by the calls made on its
    [ImageDraw]. *)
Record Image : Type := mkImage {
  im_size : Z * Z;
  im_background : Color;
  im_draw : list DrawPrimitive
}.

(** ** The plugin's inputs *)

(** The dict returned by [get_stock_data]. *)
Record StockData : Type := mkStockData {
  data_price : Q;
  data_prev_close : Q;
  data_open : Q;
  data_high : Q;
  data_low : Q;
  data_volume : Q;
  data_history : list Q
}.

Record Settings : Type := mkSettings {
  settings_ticker : option string;
  settings_period : option string;
  settings_interval : option string
}.

Record DeviceConfig : Type := mkDeviceConfig {
  get_resolution : Z * Z;
  get_orientation : string
}.

(** What the plugin reaches outside itself: Yahoo Finance (the outcome of
    each attempt, [None] when the attempt raises), the font files, the
    clock and the text measurement of a font. *)
Record World : Type := mkWorld {
  yf_attempt : string -> string -> string -> nat -> option StockData;
  font_exists : string -> bool;
  now_str : string;
  getlength : Font -> string -> Q
}.

Definition settings_get (v : option string) (default : string) : string :=
  match v with
  | Some s => s
  | None => default
  end.

(** ** [Stock.get_stock_data] (lines 21-59): the retry loop *)

Definition retries : nat := 3.

Fixpoint get_stock_data_from (attempts : nat -> option StockData)
    (attempt remaining : nat) : option StockData :=
  match remaining with
  | O => None
  | S remaining' =>
      match attempts attempt with
      | Some data => Some data
      | None => get_stock_data_from attempts (S attempt) remaining'
      end
  end.

Definition get_stock_data (w : World) (ticker period interval : string)
    : option StockData :=
  get_stock_data_from (yf_attempt w ticker period interval) 0 retries.

(** ** Layout helpers *)

(** [int(n * c)] for an int [n] and a float constant [c]. *)
Definition scaled (n : Z) (c : Q) : Z := py_int (inject_Z n * c).

Definition font_path_bold : string :=
  "/usr/share/fonts/truetype/dejavu/DejaVuSans-Bold.ttf".
Definition font_path_reg : string :=
  "/usr/share/fonts/truetype/dejavu/DejaVuSans.ttf".

(** [ImageFont.truetype(path, size)]; [None] stands for [OSError]. *)
Definition truetype (w : World) (path : string) (size : Z) : option Font :=
  if font_exists w path then Some (TrueType path size) else None.

Definition pt (x y : Z) : Point := (inject_Z x, inject_Z y).

(** ** The chart (lines 178-258) *)

(** Lines 188-189: the value range, with the previous close included. *)
Definition series_range (history : list Q) (prev_close : Q) : result (Q * Q) :=
  lo <- py_min history ;;
  hi <- py_max history ;;
  Ok (py_min2 lo prev_close, py_max2 hi prev_close).

(** Lines 203-207: one projected point per sample; [i] is the index of the
    head of [rest] in the whole history, [n] the length of the history. *)
Fixpoint project_points_from (rest : list Q) (i : nat) (n : nat)
    (min_p max_p : Q) (x_start x_end y_start y_end : Q) : result (list Point) :=
  match rest with
  | [] => Ok []
  | price :: rest' =>
      x <- map_range (inject_Z (Z.of_nat i)) 0 (inject_Z (Z.of_nat n - 1))
             x_start x_end ;;
      y <- map_range price min_p max_p y_end y_start ;;
      points <- project_points_from rest' (S i) n min_p max_p
                  x_start x_end y_start y_end ;;
      Ok ((x, y) :: points)
  end.

Definition project_points (history : list Q) (min_p max_p : Q)
    (x_start x_end y_start y_end : Q) : result (list Point) :=
  project_points_from history 0 (List.length history) min_p max_p
    x_start x_end y_start y_end.

(** Lines 233-240: where the segment meets the baseline. *)
Definition crossing_point (x1 y1 x2 y2 y_base : Q) : result Point :=
  if negb (Qeq_bool y2 y1) then
    ratio <- pdiv (y_base - y1) (y2 - y1) ;;
    Ok (x1 + (x2 - x1) * ratio, y_base)
  else
    Ok (x1, y1).

(** Lines 228-248: the split case. *)
Definition split_segment (p1 p2 : Point) (y_base : Q) (line_width : Z)
    : result (list DrawPrimitive) :=
  let '(x1, y1) := p1 in
  let '(x2, y2) := p2 in
  cross <- crossing_point x1 y1 x2 y2 y_base ;;
  let color_1 := if Qlt_bool y1 y_base then c_up else c_down in
  let color_2 := if Qlt_bool y2 y_base then c_up else c_down in
  Ok [DrawLine (x1, y1) cross color_1 line_width;
      DrawLine cross (x2, y2) color_2 line_width].

(** Lines 213-248: the body of the loop, for one adjacent pair. *)
Definition draw_segment (p1 p2 : Point) (y_base : Q) (line_width : Z)
    : result (list DrawPrimitive) :=
  let '(x1, y1) := p1 in
  let '(x2, y2) := p2 in
  if Qle_bool y1 y_base && Qle_bool y2 y_base then
    Ok [DrawLine (x1, y1) (x2, y2) c_up line_width]
  else if Qle_bool y_base y1 && Qle_bool y_base y2 then
    Ok [DrawLine (x1, y1) (x2, y2) c_down line_width]
  else
    split_segment p1 p2 y_base line_width.

(** Lines 212-248: [for i in range(len(points) - 1)]. *)
Fixpoint draw_segments (points : list Point) (y_base : Q) (line_width : Z)
    : result (list DrawPrimitive) :=
  match points with
  | p1 :: ((p2 :: _) as rest) =>
      here <- draw_segment p1 p2 y_base line_width ;;
      after <- draw_segments rest y_base line_width ;;
      Ok (here ++ after)
  | _ => Ok []
  end.

(** [l[-1]]. *)
Fixpoint py_last {A : Type} (l : list A) : result A :=
  match l with
  | [] => Err IndexError
  | [a] => Ok a
  | _ :: tl => py_last tl
  end.

Record Fonts : Type := mkFonts {
  font_giant : Font;
  font_large : Font;
  font_med : Font;
  font_small : Font;
  font_tiny : Font
}.

Definition chart_x_start (width : Z) : Z := scaled width 0.03.
Definition chart_x_end (width : Z) : Z := (width - scaled width 0.03)%Z.
Definition chart_y_start (height : Z) : Z := scaled height 0.625.
Definition chart_y_end (height : Z) : Z := (height - scaled height 0.08)%Z.
Definition line_width_for (width : Z) : Z := Z.max 2 (scaled width 0.005).
Definition dot_radius (width : Z) : Z := Z.max 4 (scaled width 0.01).

(** Lines 192-200: the labels, the baseline and its caption. *)
Definition chart_frame (width height : Z) (fonts : Fonts)
    (min_p max_p y_base : Q) : list DrawPrimitive :=
  [ DrawText (pt (chart_x_start width)
                 (chart_y_start height - scaled height 0.05))
      [Lit "High: "; Num ".2f" max_p] c_grid (font_small fonts);
    DrawText (pt (chart_x_start width) (chart_y_end height + 5))
      [Lit "Low: "; Num ".2f" min_p] c_grid (font_small fonts);
    DrawLine (inject_Z (chart_x_start width), y_base)
             (inject_Z (chart_x_end width), y_base) c_grid 2;
    DrawText (inject_Z (chart_x_end width - scaled width 0.075), y_base - 20)
      [Lit "Prev"] c_grid (font_tiny fonts) ].

(** Lines 251-258: the dot at the end of the series. *)
Definition end_marker (width : Z) (last_pt : Point) (last_price prev_close : Q)
    : DrawPrimitive :=
  let dot_color := if Qle_bool prev_close last_price then c_up else c_down in
  let r := inject_Z (dot_radius width) in
  DrawEllipse (fst last_pt - r, snd last_pt - r, fst last_pt + r, snd last_pt + r)
    dot_color.

(** Lines 184-258. *)
Definition draw_chart (width height : Z) (fonts : Fonts)
    (history : list Q) (prev_close : Q) : result (list DrawPrimitive) :=
  if (1 <? List.length history)%nat then
    range <- series_range history prev_close ;;
    let '(min_p, max_p) := range in
    y_base <- map_range prev_close min_p max_p
                (inject_Z (chart_y_end height)) (inject_Z (chart_y_start height)) ;;
    points <- project_points history min_p max_p
                (inject_Z (chart_x_start width)) (inject_Z (chart_x_end width))
                (inject_Z (chart_y_start height)) (inject_Z (chart_y_end height)) ;;
    segments <- draw_segments points y_base (line_width_for width) ;;
    last_pt <- py_last points ;;
    last_price <- py_last history ;;
    Ok (chart_frame width height fonts min_p max_p y_base
        ++ segments
        ++ [end_marker width last_pt last_price prev_close])
  else
    Ok [].

(** ** The dashboard above the chart (lines 101-176) *)

(** Line 103. *)
Definition change_amt (current_price prev_close : Q) : Q :=
  current_price - prev_close.

(** Line 104: [(change_amt / prev_close) * 100 if prev_close else 0]. *)
Definition change_pct (current_price prev_close : Q) : result Q :=
  if negb (Qeq_bool prev_close 0) then
    q <- pdiv (change_amt current_price prev_close) prev_close ;;
    Ok (q * 100)
  else
    Ok 0.

(** Lines 114-122: the five fonts, or the built-in one for all of them as
    soon as one file is missing. *)
Definition all_default : Fonts :=
  mkFonts DefaultFont DefaultFont DefaultFont DefaultFont DefaultFont.

Definition load_fonts (w : World) (height : Z) : Fonts :=
  match truetype w font_path_bold (scaled height 0.20),
        truetype w font_path_bold (scaled height 0.125),
        truetype w font_path_reg (scaled height 0.06),
        truetype w font_path_reg (scaled height 0.04),
        truetype w font_path_reg (scaled height 0.033) with
  | Some giant, Some large, Some med, Some small, Some tiny =>
      mkFonts giant large med small tiny
  | _, _, _, _, _ => all_default
  end.

(** Lines 94-97. *)
Definition load_font_error (w : World) (height : Z) : Font :=
  match truetype w font_path_bold (scaled height 0.08) with
  | Some f => f
  | None => DefaultFont
  end.

(** Lines 173-176: one row per label, [start_y] moving down. *)
Fixpoint draw_labels (labels : list (string * list FPiece))
    (label_x value_x start_y row_height : Z) (font : Font)
    : list DrawPrimitive :=
  match labels with
  | [] => []
  | (label, value) :: labels' =>
      DrawText (pt label_x start_y) [Lit label] c_dim font
      :: DrawText (pt value_x start_y) value c_text_main font
      :: draw_labels labels' label_x value_x (start_y + row_height)%Z
           row_height font
  end.

(** Lines 124-176: header, price, change and the details column. *)
Definition draw_dashboard (w : World) (width height : Z) (fonts : Fonts)
    (ticker : string) (data : StockData) : result (list DrawPrimitive) :=
  let current_price := data_price data in
  let prev_close := data_prev_close data in
  let amt := change_amt current_price prev_close in
  pct <- change_pct current_price prev_close ;;
  let is_bullish := Qle_bool 0 amt in
  let c_accent := if is_bullish then c_up else c_down in
  let margin_x := scaled width 0.025 in
  let margin_y := scaled height 0.04 in
  let time_width := getlength w (font_med fonts) (now_str w) in
  let time_x := inject_Z width - time_width - inject_Z margin_x in
  let price_y := scaled height 0.20 in
  let sign := if is_bullish then "+"%string else ""%string in
  let change_y := scaled height 0.45 in
  let col_x_start := scaled width 0.625 in
  let details_y_start := scaled height 0.18 in
  let details_y_end := scaled height 0.58 in
  vol <- pdiv (data_volume data) 1000000 ;;
  let labels :=
    [ ("Open"%string, [Lit "$"; Num ".2f" (data_open data)]);
      ("High"%string, [Lit "$"; Num ".2f" (data_high data)]);
      ("Low"%string, [Lit "$"; Num ".2f" (data_low data)]);
      ("Vol"%string, [Num ".1f" vol; Lit "M"]) ] in
  let label_x := (col_x_start + scaled width 0.025)%Z in
  let value_x := (col_x_start + scaled width 0.175)%Z in
  let row_height := scaled height 0.10 in
  Ok ([ DrawText (pt margin_x margin_y) [Lit ticker] c_text_main
          (font_large fonts);
        DrawText (time_x, inject_Z (scaled height 0.06)) [Lit (now_str w)]
          c_dim (font_med fonts);
        DrawText (pt margin_x price_y) [Lit "$"; Num ",.2f" current_price]
          c_text_main (font_giant fonts);
        DrawText (pt margin_x change_y)
          [Lit sign; Num ".2f" amt; Lit " ("; Lit sign; Num ".2f" pct; Lit "%)"]
          c_accent (font_med fonts);
        DrawLine (pt col_x_start details_y_start) (pt col_x_start details_y_end)
          c_grid 3 ]
      ++ draw_labels labels label_x value_x details_y_start row_height
           (font_med fonts)).

(** ** [Stock.generate_image] (lines 66-260) *)

(** Lines 75-78: the resolution, transposed on a vertical display. *)
Definition oriented_dimensions (device_config : DeviceConfig) : Z * Z :=
  let dimensions := get_resolution device_config in
  if String.eqb (get_orientation device_config) "vertical"
  then (snd dimensions, fst dimensions) else dimensions.

(** Lines 91-99: the image drawn when there is no data. *)
Definition draw_failure (w : World) (height : Z) (ticker : string)
    : list DrawPrimitive :=
  [ DrawText (pt 20 (height / 2))
      [Lit "Failed to fetch data for "; Lit ticker] c_down
      (load_font_error w height) ].

Definition generate_image (w : World) (settings : Settings)
    (device_config : DeviceConfig) : result Image :=
  let ticker := settings_get (settings_ticker settings) "TSLA" in
  let period := settings_get (settings_period settings) "1d" in
  let interval := settings_get (settings_interval settings) "15m" in
  let data := get_stock_data w ticker period interval in
  let '(width, height) := oriented_dimensions device_config in
  match data with
  | None =>
      Ok (mkImage (width, height) c_bg (draw_failure w height ticker))
  | Some data =>
      let fonts := load_fonts w height in
      dashboard <- draw_dashboard w width height fonts ticker data ;;
      chart <- draw_chart width height fonts
                 (data_history data) (data_prev_close data) ;;
      Ok (mkImage (width, height) c_bg (dashboard ++ chart))
  end.

(** ** Vocabulary of the statements *)

(** The two guards of the loop body (lines 220 and 224), as propositions. *)
Definition bullish (y1 y2 y_base : Q) : Prop := y1 <= y_base /\ y2 <= y_base.
Definition bearish (y1 y2 y_base : Q) : Prop := y_base <= y1 /\ y_base <= y2.

(** The interpolation of [map_range], without the guard. *)
Definition interpolate (value in_min in_max out_min out_max : Q) : Q :=
  (value - in_min) * (out_max - out_min) / (in_max - in_min) + out_min.

(** The segments joining consecutive points, all in one colour. *)
Fixpoint polyline (points : list Point) (fill : Color) (lw : Z)
    : list DrawPrimitive :=
  match points with
  | p1 :: ((p2 :: _) as rest) => DrawLine p1 p2 fill lw :: polyline rest fill lw
  | _ => []
  end.

Definition primitive_fill (op : DrawPrimitive) : Color :=
  match op with
  | DrawText _ _ fill _ => fill
  | DrawLine _ _ fill _ => fill
  | DrawEllipse _ fill => fill
  end.

(** The vertical rule of the details column (line 159). *)
Definition details_rule (width height : Z) : DrawPrimitive :=
  DrawLine (pt (scaled width 0.625) (scaled height 0.18))
           (pt (scaled width 0.625) (scaled height 0.58)) c_grid 3.

(** What the dashboard draws: texts in a colour other than the grid colour
    of the chart captions, and the rule of the details column; no other
    line and no ellipse. *)
Definition dashboard_primitive (width height : Z) (op : DrawPrimitive) : Prop :=
  match op with
  | DrawText _ _ fill _ => fill <> c_grid
  | DrawLine _ _ _ _ => op = details_rule width height
  | DrawEllipse _ _ => False
  end.

(** Sample inputs: a display of 800 x 480, default settings, a feed that is
    down and feeds that answer at the first attempt. *)
Definition sample_display : DeviceConfig := mkDeviceConfig (800, 480)%Z "horizontal".
Definition default_settings : Settings := mkSettings None None None.

Definition world_offline : World :=
  mkWorld (fun _ _ _ _ => None) (fun _ => false) "Mon 10:00" (fun _ _ => 90).

Definition world_with (history : list Q) : World :=
  mkWorld (fun _ _ _ _ => Some (mkStockData 101 100 100 102 99 1500000 history))
    (fun _ => true) "Mon 10:00" (fun _ _ => 90).

(** Coordinates in lowest terms, to compare drawings computed on samples. *)
Definition reduce_point (p : Point) : Point := (Qred (fst p), Qred (snd p)).

Definition reduce_primitive (op : DrawPrimitive) : DrawPrimitive :=
  match op with
  | DrawText xy text fill font => DrawText (reduce_point xy) text fill font
  | DrawLine p1 p2 fill width =>
      DrawLine (reduce_point p1) (reduce_point p2) fill width
  | DrawEllipse (x0, y0, x1, y1) fill =>
      DrawEllipse (Qred x0, Qred y0, Qred x1, Qred y1) fill
  end.

Definition reduced (r : result (list DrawPrimitive))
    : result (list DrawPrimitive) :=
  match r with
  | Ok ops => Ok (map reduce_primitive ops)
  | Err e => Err e
  end.

(** ** The retry loop with its log and its pauses (lines 23 and 55-57) *)

(** What a failed attempt leaves behind: the error line
    ["Attempt k/3 failed"] and a pause of [retry_delay] seconds. *)
Inductive Event : Type :=
| LogError (attempt_number : nat) (of_retries : nat)
| Sleep (seconds : Z).

Definition retry_delay : Z := 5.

Fixpoint get_stock_data_log (attempts : nat -> option StockData)
    (attempt remaining : nat) : option StockData * list Event :=
  match remaining with
  | O => (None, [])
  | S remaining' =>
      match attempts attempt with
      | Some data => (Some data, [])
      | None =>
          let '(data, events) :=
            get_stock_data_log attempts (S attempt) remaining' in
          (data, LogError (attempt + 1) retries :: Sleep retry_delay :: events)
      end
  end.

(** The seconds spent in [time.sleep]. *)
Fixpoint slept (events : list Event) : Z :=
  match events with
  | [] => 0
  | Sleep seconds :: events' => seconds + slept events'
  | LogError _ _ :: events' => slept events'
  end.

(** A run of lines drawn end to end from [from] to [to]. *)
Fixpoint chain (from : Point) (ops : list DrawPrimitive) (to : Point) : Prop :=
  match ops with
  | [] => from = to
  | DrawLine p1 p2 _ _ :: ops' => p1 = from /\ chain p2 ops' to
  | _ :: _ => False
  end.

(** A line of the chart in the colour of its side: green with both ends at
    or above the baseline on screen ([y <= y_base]), red with both ends at
    or below it. *)
Definition segment_line (y_base : Q) (lw : Z) (op : DrawPrimitive) : Prop :=
  match op with
  | DrawLine p1 p2 fill width =>
      width = lw
      /\ ((fill = c_up /\ snd p1 <= y_base /\ snd p2 <= y_base)
          \/ (fill = c_down /\ y_base <= snd p1 /\ y_base <= snd p2))
  | _ => False
  end.

(** ** One attempt of [get_stock_data] (lines 25-54) *)

(** A row of the frame returned by [stock.history]. *)
Record Bar : Type := mkBar {
  bar_open : Q;
  bar_high : Q;
  bar_low : Q;
  bar_close : Q;
  bar_volume : Q
}.

(** What Yahoo Finance answers to one attempt; [None] where the access
    raises: [fast_info] (last price, previous close), [history] and the
    [info] dict. *)
Record YahooAnswer : Type := mkYahooAnswer {
  ya_fast_info : option (Q * Q);
  ya_history : option (list Bar);
  ya_info : option (string -> option Q)
}.

(** [d.get(key, default)]. *)
Definition dict_get (d : string -> option Q) (key : string) (default : Q) : Q :=
  match d key with
  | Some v => v
  | None => default
  end.

(** [column.iloc[-1] if not hist.empty else 0.0]. *)
Definition last_or_zero (column : list Q) : Q :=
  match py_last column with
  | Ok v => v
  | Err _ => 0
  end.

(** [column.max() if not hist.empty else 0.0]. *)
Definition max_or_zero (column : list Q) : Q :=
  match py_max column with
  | Ok v => v
  | Err _ => 0
  end.

(** [column.min() if not hist.empty else 0.0]. *)
Definition min_or_zero (column : list Q) : Q :=
  match py_min column with
  | Ok v => v
  | Err _ => 0
  end.

(** [column.sum() if not hist.empty else 0]. *)
Definition sum_or_zero (column : list Q) : Q := fold_left Qplus column 0.

(** The body of the [try]: [None] when it raises. *)
Definition fetch_attempt (answer : YahooAnswer) : option StockData :=
  match ya_fast_info answer with
  | None => None
  | Some (current_price, prev_close) =>
      match ya_history answer with
      | None => None
      | Some hist =>
          let '(d_open, d_high, d_low, d_vol) :=
            match ya_info answer with
            | Some info =>
                (dict_get info "open" 0, dict_get info "dayHigh" 0,
                 dict_get info "dayLow" 0, dict_get info "volume" 0)
            | None =>
                (last_or_zero (map bar_open hist),
                 max_or_zero (map bar_high hist),
                 min_or_zero (map bar_low hist),
                 sum_or_zero (map bar_volume hist))
            end in
          Some (mkStockData current_price prev_close d_open d_high d_low d_vol
                  (map bar_close hist))
      end
  end.

(** The number of ellipses among the drawing calls. *)
Fixpoint count_ellipses (ops : list DrawPrimitive) : nat :=
  match ops with
  | [] => 0
  | DrawEllipse _ _ :: ops' => S (count_ellipses ops')
  | _ :: ops' => count_ellipses ops'
  end.

(** ** Basic facts on the primitives *)

Lemma Qlt_bool_iff (a b : Q) : Qlt_bool a b = true <-> a < b.
Proof.
  unfold Qlt_bool. rewrite negb_true_iff.
  split; intro H.
  - apply Qnot_le_lt. intro Hle. apply Qle_bool_iff in Hle. congruence.
  - destruct (Qle_bool b a) eqn:E; [|reflexivity].
    apply Qle_bool_iff in E. exfalso. apply (Qlt_not_le _ _ H E).
Qed.

Lemma Qlt_bool_false_iff (a b : Q) : Qlt_bool a b = false <-> b <= a.
Proof.
  unfold Qlt_bool. rewrite negb_false_iff. apply Qle_bool_iff.
Qed.

Lemma Qle_bool_false_iff (a b : Q) : Qle_bool a b = false <-> b < a.
Proof.
  rewrite <- Qlt_bool_iff. unfold Qlt_bool.
  destruct (Qle_bool a b); simpl; split; congruence.
Qed.

Lemma Qeq_bool_false_iff (a b : Q) : Qeq_bool a b = false <-> ~ a == b.
Proof.
  split.
  - intros H E. apply Qeq_bool_iff in E. congruence.
  - intro H. destruct (Qeq_bool a b) eqn:E; [|reflexivity].
    apply Qeq_bool_iff in E. contradiction.
Qed.

Lemma pdiv_ok (a b : Q) : ~ b == 0 -> pdiv a b = Ok (a / b).
Proof.
  intro H. unfold pdiv. apply Qeq_bool_false_iff in H. now rewrite H.
Qed.

Lemma pdiv_zero (a b : Q) : b == 0 -> pdiv a b = Err ZeroDivisionError.
Proof.
  intro H. unfold pdiv. apply Qeq_bool_iff in H. now rewrite H.
Qed.

Lemma c_up_neq_c_down : c_up <> c_down.
Proof. discriminate. Qed.

(** ** The range mapper *)

Lemma map_range_degenerate (value in_min in_max out_min out_max : Q) :
  in_min == in_max ->
  map_range value in_min in_max out_min out_max = Ok ((out_min + out_max) / 2).
Proof.
  intro H. unfold map_range.
  assert (E : Qeq_bool in_max in_min = true)
    by (apply Qeq_bool_iff; symmetry; exact H).
  rewrite E. apply pdiv_ok. discriminate.
Qed.

Lemma map_range_regular (value in_min in_max out_min out_max : Q) :
  ~ in_min == in_max ->
  map_range value in_min in_max out_min out_max =
  Ok ((value - in_min) * (out_max - out_min) / (in_max - in_min) + out_min).
Proof.
  intro H. unfold map_range.
  assert (E : Qeq_bool in_max in_min = false).
  { apply Qeq_bool_false_iff. intro E. apply H. symmetry. exact E. }
  rewrite E. rewrite pdiv_ok; [reflexivity|].
  intro E0. apply H. lra.
Qed.

Lemma map_range_total (value in_min in_max out_min out_max : Q) :
  exists r, map_range value in_min in_max out_min out_max = Ok r.
Proof.
  destruct (Qeq_dec in_min in_max) as [E|E].
  - eexists. apply map_range_degenerate, E.
  - eexists. apply map_range_regular, E.
Qed.

(** C5.  [map_range] returns the midpoint [(out_min + out_max) / 2] of the
    output range whenever [in_min == in_max], whatever [value] is, and the
    linear interpolation
    [(value - in_min) * (out_max - out_min) / (in_max - in_min) + out_min]
    otherwise; it never raises. *)
Theorem map_range_spec (value in_min in_max out_min out_max : Q) :
  (in_min == in_max ->
   map_range value in_min in_max out_min out_max
   = Ok ((out_min + out_max) / 2))
  /\ (~ in_min == in_max ->
      map_range value in_min in_max out_min out_max
      = Ok ((value - in_min) * (out_max - out_min) / (in_max - in_min)
            + out_min))
  /\ (exists r, map_range value in_min in_max out_min out_max = Ok r).
Proof.
  split; [|split].
  - apply map_range_degenerate.
  - apply map_range_regular.
  - apply map_range_total.
Qed.

Lemma map_range_spec_witness :
  map_range 7 3 3 0 10 = Ok ((0 + 10) / 2)
  /\ map_range 5 0 10 100 200 = Ok ((5 - 0) * (200 - 100) / (10 - 0) + 100).
Proof.
  split.
  - apply (proj1 (map_range_spec 7 3 3 0 10)). reflexivity.
  - apply (proj1 (proj2 (map_range_spec 5 0 10 100 200))). discriminate.
Defined.



(** ** The change since the previous close *)

Lemma change_pct_zero (current_price prev_close : Q) :
  prev_close == 0 -> change_pct current_price prev_close = Ok 0.
Proof.
  intro H. unfold change_pct. apply Qeq_bool_iff in H. now rewrite H.
Qed.

Lemma change_pct_nonzero (current_price prev_close : Q) :
  ~ prev_close == 0 ->
  change_pct current_price prev_close
  = Ok (change_amt current_price prev_close / prev_close * 100).
Proof.
  intro H. unfold change_pct.
  rewrite (proj2 (Qeq_bool_false_iff _ _) H). simpl.
  now rewrite (pdiv_ok _ _ H).
Qed.

(** C10.  The change amount is the current price minus the previous close;
    the percentage is 0 when the previous close is zero, without any
    division, and [(change / prev_close) * 100] otherwise. *)
Theorem change_pct_spec (current_price prev_close : Q) :
  change_amt current_price prev_close = current_price - prev_close
  /\ (prev_close == 0 -> change_pct current_price prev_close = Ok 0)
  /\ (~ prev_close == 0 ->
      change_pct current_price prev_close
      = Ok (change_amt current_price prev_close / prev_close * 100)).
Proof.
  split; [reflexivity|]. split.
  - apply change_pct_zero.
  - apply change_pct_nonzero.
Qed.

Lemma change_pct_spec_witness :
  change_pct 12 0 = Ok 0
  /\ change_pct 110 100 = Ok (change_amt 110 100 / 100 * 100).
Proof.
  split.
  - apply (proj1 (proj2 (change_pct_spec 12 0))). reflexivity.
  - apply (proj2 (proj2 (change_pct_spec 110 100))). discriminate.
Defined.

(** ** The segment classifier *)

Section Classifier.

Variables (x1 y1 x2 y2 y_base : Q) (lw : Z).

Lemma bullish_test :
  Qle_bool y1 y_base && Qle_bool y2 y_base = true <-> bullish y1 y2 y_base.
Proof.
  unfold bullish. now rewrite andb_true_iff, !Qle_bool_iff.
Qed.

Lemma bearish_test :
  Qle_bool y_base y1 && Qle_bool y_base y2 = true <-> bearish y1 y2 y_base.
Proof.
  unfold bearish. now rewrite andb_true_iff, !Qle_bool_iff.
Qed.

Lemma draw_segment_bullish :
  bullish y1 y2 y_base ->
  draw_segment (x1, y1) (x2, y2) y_base lw
  = Ok [DrawLine (x1, y1) (x2, y2) c_up lw].
Proof.
  intro H. apply bullish_test in H. unfold draw_segment. now rewrite H.
Qed.

Lemma draw_segment_bearish :
  ~ bullish y1 y2 y_base -> bearish y1 y2 y_base ->
  draw_segment (x1, y1) (x2, y2) y_base lw
  = Ok [DrawLine (x1, y1) (x2, y2) c_down lw].
Proof.
  intros Hn H. apply bearish_test in H. unfold draw_segment.
  destruct (Qle_bool y1 y_base && Qle_bool y2 y_base) eqn:E.
  - apply bullish_test in E. contradiction.
  - now rewrite H.
Qed.

Lemma draw_segment_crossing :
  ~ bullish y1 y2 y_base -> ~ bearish y1 y2 y_base ->
  draw_segment (x1, y1) (x2, y2) y_base lw
  = split_segment (x1, y1) (x2, y2) y_base lw.
Proof.
  intros Hu Hd. unfold draw_segment.
  destruct (Qle_bool y1 y_base && Qle_bool y2 y_base) eqn:E.
  - apply bullish_test in E. contradiction.
  - destruct (Qle_bool y_base y1 && Qle_bool y_base y2) eqn:E'.
    + apply bearish_test in E'. contradiction.
    + reflexivity.
Qed.

(** Two points at the same height are on the same side of the baseline. *)
Lemma crossing_distinct :
  ~ bullish y1 y2 y_base -> ~ bearish y1 y2 y_base -> ~ y2 == y1.
Proof.
  unfold bullish, bearish. intros Hu Hd E.
  destruct (Qlt_le_dec y_base y1) as [L|L].
  - apply Hd. split; lra.
  - apply Hu. split; lra.
Qed.

Lemma crossing_point_regular :
  ~ y2 == y1 ->
  crossing_point x1 y1 x2 y2 y_base
  = Ok (x1 + (x2 - x1) * ((y_base - y1) / (y2 - y1)), y_base).
Proof.
  intro H. unfold crossing_point.
  rewrite (proj2 (Qeq_bool_false_iff _ _) H). simpl.
  rewrite pdiv_ok; [reflexivity|]. intro E. apply H. lra.
Qed.

Lemma crossing_point_fallback :
  y2 == y1 -> crossing_point x1 y1 x2 y2 y_base = Ok (x1, y1).
Proof.
  intro H. unfold crossing_point.
  apply Qeq_bool_iff in H. now rewrite H.
Qed.

Lemma side_color (y : Q) :
  let color := if Qlt_bool y y_base then c_up else c_down in
  (color = c_up <-> y < y_base) /\ (color = c_down <-> ~ y < y_base).
Proof.
  simpl. destruct (Qlt_bool y y_base) eqn:E.
  - apply Qlt_bool_iff in E. repeat split; try tauto; discriminate.
  - assert (N : ~ y < y_base).
    { intro L. apply Qlt_bool_iff in L. congruence. }
    repeat split; try tauto; discriminate.
Qed.

End Classifier.

(** C1.  In the crossing branch the classifier computes
    [ratio = (y_base - y1) / (y2 - y1)] and [x_cross = x1 + (x2 - x1) * ratio],
    and emits exactly the two sub-segments [(x1,y1) -> (x_cross,y_base)] and
    [(x_cross,y_base) -> (x2,y2)], the first coloured up iff [y1 < y_base],
    the second coloured up iff [y2 < y_base] (down otherwise). *)
Theorem crossing_branch_split (x1 y1 x2 y2 y_base : Q) (lw : Z) :
  ~ bullish y1 y2 y_base ->
  ~ bearish y1 y2 y_base ->
  let ratio := (y_base - y1) / (y2 - y1) in
  let x_cross := x1 + (x2 - x1) * ratio in
  exists color_1 color_2 : Color,
    draw_segment (x1, y1) (x2, y2) y_base lw
    = Ok [DrawLine (x1, y1) (x_cross, y_base) color_1 lw;
          DrawLine (x_cross, y_base) (x2, y2) color_2 lw]
    /\ (color_1 = c_up <-> y1 < y_base)
    /\ (color_1 = c_down <-> ~ y1 < y_base)
    /\ (color_2 = c_up <-> y2 < y_base)
    /\ (color_2 = c_down <-> ~ y2 < y_base).
Proof.
  intros Hu Hd ratio x_cross.
  exists (if Qlt_bool y1 y_base then c_up else c_down),
         (if Qlt_bool y2 y_base then c_up else c_down).
  split.
  - rewrite draw_segment_crossing by assumption.
    unfold split_segment.
    rewrite crossing_point_regular
      by (apply (crossing_distinct y1 y2 y_base); assumption).
    reflexivity.
  - pose proof (side_color y_base y1) as [A B].
    pose proof (side_color y_base y2) as [C D].
    repeat split; first [apply A | apply B | apply C | apply D].
Qed.

(** The instance of the specification: [y1 = 50], [y2 = 150], [y_base = 100],
    [x1 = 0], [x2 = 10] gives the ratio 1/2 and the crossing at [x = 5]. *)
Lemma crossing_branch_split_witness :
  (100 - 50) / (150 - 50) == 0.5
  /\ 0 + (10 - 0) * ((100 - 50) / (150 - 50)) == 5
  /\ exists x_cross,
       x_cross == 5
       /\ draw_segment (0, 50) (10, 150) 100 2
          = Ok [DrawLine (0, 50) (x_cross, 100) c_up 2;
                DrawLine (x_cross, 100) (10, 150) c_down 2].
Proof.
  split; [reflexivity|]. split; [reflexivity|].
  assert (Hu : ~ bullish 50 150 100)
    by (unfold bullish; intros [_ H]; revert H; apply Qlt_not_le; reflexivity).
  assert (Hd : ~ bearish 50 150 100)
    by (unfold bearish; intros [H _]; revert H; apply Qlt_not_le; reflexivity).
  destruct (crossing_branch_split 0 50 10 150 100 2 Hu Hd)
    as (c1 & c2 & E & U1 & _ & _ & D2).
  exists (0 + (10 - 0) * ((100 - 50) / (150 - 50))).
  split; [reflexivity|].
  rewrite E.
  assert (c1 = c_up) as -> by (apply U1; reflexivity).
  assert (c2 = c_down) as ->
    by (apply D2; apply Qle_not_lt; discriminate).
  reflexivity.
Defined.

(** C2 as stated does not hold: an endpoint on the baseline does not make
    the segment up.  With [y1 = y_base = 100] and [y2 = 150] the pair is not
    bullish, it is bearish, and the single segment is coloured down. *)
Lemma tie_break_counterexample :
  ~ (forall (x1 y1 x2 y2 y_base : Q) (lw : Z),
       y1 == y_base \/ y2 == y_base ->
       draw_segment (x1, y1) (x2, y2) y_base lw
       = Ok [DrawLine (x1, y1) (x2, y2) c_up lw]).
Proof.
  intro H.
  specialize (H 0 100 1 150 100 2%Z (or_introl (Qeq_refl 100))).
  vm_compute in H. discriminate H.
Qed.

(** C2, amended.  A pair with an endpoint on the baseline yields a single
    segment.  It is coloured up when both guards hold (both endpoints on the
    baseline), since the bullish guard is tested first, and more generally
    when the other endpoint is not below the baseline ([y <= y_base]); it is
    coloured down when the other endpoint is below it ([y > y_base]). *)
Theorem tie_break_up (x1 y1 x2 y2 y_base : Q) (lw : Z) :
  y1 == y_base \/ y2 == y_base ->
  (bullish y1 y2 y_base /\ bearish y1 y2 y_base ->
   draw_segment (x1, y1) (x2, y2) y_base lw
   = Ok [DrawLine (x1, y1) (x2, y2) c_up lw])
  /\ (y1 <= y_base /\ y2 <= y_base ->
      draw_segment (x1, y1) (x2, y2) y_base lw
      = Ok [DrawLine (x1, y1) (x2, y2) c_up lw])
  /\ (y_base < y1 \/ y_base < y2 ->
      draw_segment (x1, y1) (x2, y2) y_base lw
      = Ok [DrawLine (x1, y1) (x2, y2) c_down lw]).
Proof.
  intro Hend. split; [|split].
  - intros [Hu _]. apply draw_segment_bullish, Hu.
  - intro Hu. apply draw_segment_bullish, Hu.
  - intro Hbelow. apply draw_segment_bearish.
    + unfold bullish. intros [A B]. destruct Hbelow; lra.
    + unfold bearish. destruct Hend, Hbelow; split; lra.
Qed.

Lemma tie_break_up_witness :
  draw_segment (0, 100) (1, 100) 100 2
  = Ok [DrawLine (0, 100) (1, 100) c_up 2]
  /\ draw_segment (0, 100) (1, 150) 100 2
     = Ok [DrawLine (0, 100) (1, 150) c_down 2].
Proof.
  split.
  - apply (proj1 (tie_break_up 0 100 1 100 100 2 (or_introl (Qeq_refl 100)))).
    unfold bullish, bearish. repeat split; discriminate.
  - apply (proj2 (proj2
             (tie_break_up 0 100 1 150 100 2 (or_introl (Qeq_refl 100))))).
    right. reflexivity.
Defined.

(** C3 as stated does not hold: when [y2 == y1] the fallback crossing point
    is not the second point.  For the points [(0, 50)] and [(10, 50)] it is
    [(0, 50)], the first one. *)
Lemma crossing_fallback_counterexample :
  ~ (forall x1 y1 x2 y2 y_base : Q,
       y2 == y1 ->
       exists p,
         crossing_point x1 y1 x2 y2 y_base = Ok p
         /\ fst p == x2 /\ snd p == y2).
Proof.
  intro H.
  destruct (H 0 50 10 50 100 (Qeq_refl 50)) as (p & E & Hx & _).
  vm_compute in E. injection E as <-.
  revert Hx. discriminate.
Qed.

(** C3, amended.  In the crossing branch [y2 == y1] cannot happen; if the
    split code is nevertheless run on two points of equal height, it takes
    the first point [(x1, y1)] as the crossing point and returns its two
    sub-segments without raising. *)
Theorem crossing_fallback (x1 y1 x2 y2 y_base : Q) (lw : Z) :
  (~ bullish y1 y2 y_base -> ~ bearish y1 y2 y_base -> ~ y2 == y1)
  /\ (y2 == y1 ->
      crossing_point x1 y1 x2 y2 y_base = Ok (x1, y1)
      /\ exists color_1 color_2,
           split_segment (x1, y1) (x2, y2) y_base lw
           = Ok [DrawLine (x1, y1) (x1, y1) color_1 lw;
                 DrawLine (x1, y1) (x2, y2) color_2 lw]).
Proof.
  split.
  - apply crossing_distinct.
  - intro E. split; [apply crossing_point_fallback, E|].
    unfold split_segment. rewrite (crossing_point_fallback _ _ _ _ _ E).
    simpl. eauto.
Qed.

Lemma crossing_fallback_witness :
  ~ 150 == 50
  /\ crossing_point 0 50 10 50 100 = Ok (0, 50).
Proof.
  split.
  - apply (proj1 (crossing_fallback 0 50 10 150 100 2)).
    + unfold bullish. intros [_ H]. revert H. apply Qlt_not_le. reflexivity.
    + unfold bearish. intros [H _]. revert H. apply Qlt_not_le. reflexivity.
  - apply (proj2 (crossing_fallback 0 50 10 50 100 2)). reflexivity.
Defined.

(** ** The series normalizer and the baseline locator *)

Lemma py_min2_spec (a b : Q) :
  (py_min2 a b = a \/ py_min2 a b = b)
  /\ py_min2 a b <= a /\ py_min2 a b <= b.
Proof.
  unfold py_min2. destruct (Qlt_bool b a) eqn:E.
  - apply Qlt_bool_iff in E. repeat split; auto; lra.
  - apply Qlt_bool_false_iff in E. repeat split; auto; lra.
Qed.

Lemma py_max2_spec (a b : Q) :
  (py_max2 a b = a \/ py_max2 a b = b)
  /\ a <= py_max2 a b /\ b <= py_max2 a b.
Proof.
  unfold py_max2. destruct (Qlt_bool a b) eqn:E.
  - apply Qlt_bool_iff in E. repeat split; auto; lra.
  - apply Qlt_bool_false_iff in E. repeat split; auto; lra.
Qed.

Lemma py_min2_Qmin (a b : Q) : py_min2 a b == Qmin a b.
Proof.
  unfold py_min2. destruct (Qlt_bool b a) eqn:E.
  - apply Qlt_bool_iff in E. symmetry. apply Q.min_r. lra.
  - apply Qlt_bool_false_iff in E. symmetry. apply Q.min_l. exact E.
Qed.

Lemma py_max2_Qmax (a b : Q) : py_max2 a b == Qmax a b.
Proof.
  unfold py_max2. destruct (Qlt_bool a b) eqn:E.
  - apply Qlt_bool_iff in E. symmetry. apply Q.max_r. lra.
  - apply Qlt_bool_false_iff in E. symmetry. apply Q.max_l. exact E.
Qed.

(** The running minimum of [min(l)] is an element and a lower bound. *)
Lemma fold_min_spec (l : list Q) (x : Q) :
  In (fold_left py_min2 l x) (x :: l)
  /\ forall v, In v (x :: l) -> fold_left py_min2 l x <= v.
Proof.
  revert x. induction l as [|a l IH]; intro x; simpl.
  - split; [now left|]. intros v [<-|[]]. lra.
  - destruct (IH (py_min2 x a)) as [Hin Hle].
    destruct (py_min2_spec x a) as [Hsel [Hx Ha]].
    split.
    + destruct Hin as [Hin|Hin]; [|now right; right].
      rewrite <- Hin. destruct Hsel as [-> | ->]; [now left|now right; left].
    + intros v [<-|[<-|Hv]].
      * apply Qle_trans with (py_min2 x a); [apply Hle; now left|exact Hx].
      * apply Qle_trans with (py_min2 x a); [apply Hle; now left|exact Ha].
      * apply Hle. now right.
Qed.

Lemma fold_max_spec (l : list Q) (x : Q) :
  In (fold_left py_max2 l x) (x :: l)
  /\ forall v, In v (x :: l) -> v <= fold_left py_max2 l x.
Proof.
  revert x. induction l as [|a l IH]; intro x; simpl.
  - split; [now left|]. intros v [<-|[]]. lra.
  - destruct (IH (py_max2 x a)) as [Hin Hle].
    destruct (py_max2_spec x a) as [Hsel [Hx Ha]].
    split.
    + destruct Hin as [Hin|Hin]; [|now right; right].
      rewrite <- Hin. destruct Hsel as [-> | ->]; [now left|now right; left].
    + intros v [<-|[<-|Hv]].
      * apply Qle_trans with (py_max2 x a); [exact Hx|apply Hle; now left].
      * apply Qle_trans with (py_max2 x a); [exact Ha|apply Hle; now left].
      * apply Hle. now right.
Qed.

Lemma py_min_spec (l : list Q) :
  l <> [] ->
  exists lo, py_min l = Ok lo /\ In lo l /\ forall v, In v l -> lo <= v.
Proof.
  destruct l as [|x l]; [congruence|]. intros _.
  exists (fold_left py_min2 l x). split; [reflexivity|]. apply fold_min_spec.
Qed.

Lemma py_max_spec (l : list Q) :
  l <> [] ->
  exists hi, py_max l = Ok hi /\ In hi l /\ forall v, In v l -> v <= hi.
Proof.
  destruct l as [|x l]; [congruence|]. intros _.
  exists (fold_left py_max2 l x). split; [reflexivity|]. apply fold_max_spec.
Qed.

Lemma interpolate_scaled (value in_min in_max out_min out_max : Q) :
  in_min < in_max ->
  (interpolate value in_min in_max out_min out_max - out_min)
  * (in_max - in_min)
  == (value - in_min) * (out_max - out_min).
Proof.
  intro H. unfold interpolate. field. lra.
Qed.

(** With the output range flipped ([out_max <= out_min], as for the screen's
    y axis) the interpolation is antitone in the value. *)
Lemma interpolate_antitone (v1 v2 in_min in_max out_min out_max : Q) :
  in_min < in_max -> out_max <= out_min -> v1 <= v2 ->
  interpolate v2 in_min in_max out_min out_max
  <= interpolate v1 in_min in_max out_min out_max.
Proof.
  intros Hin Hout Hv.
  pose proof (interpolate_scaled v1 in_min in_max out_min out_max Hin) as E1.
  pose proof (interpolate_scaled v2 in_min in_max out_min out_max Hin) as E2.
  set (i1 := interpolate v1 in_min in_max out_min out_max) in *.
  set (i2 := interpolate v2 in_min in_max out_min out_max) in *.
  nra.
Qed.


Lemma interpolate_at_min (in_min in_max out_min out_max : Q) :
  in_min < in_max ->
  interpolate in_min in_min in_max out_min out_max == out_min.
Proof. intro H. unfold interpolate. field. lra. Qed.

Lemma interpolate_at_max (in_min in_max out_min out_max : Q) :
  in_min < in_max ->
  interpolate in_max in_min in_max out_min out_max == out_max.
Proof. intro H. unfold interpolate. field. lra. Qed.

Lemma map_range_interpolate (value in_min in_max out_min out_max : Q) :
  in_min < in_max ->
  map_range value in_min in_max out_min out_max
  = Ok (interpolate value in_min in_max out_min out_max).
Proof.
  intro H. apply map_range_regular. lra.
Qed.

(** ** The chart rectangle *)

Lemma scaled_le (n : Z) (c : Q) :
  (0 <= n)%Z -> 0 <= c -> inject_Z (scaled n c) <= inject_Z n * c.
Proof.
  intros Hn Hc. unfold scaled, py_int.
  assert (H0 : 0 <= inject_Z n * c).
  { apply Qmult_le_0_compat; [|exact Hc].
    change 0 with (inject_Z 0). now rewrite <- Zle_Qle. }
  apply Qle_bool_iff in H0. rewrite H0. apply Qfloor_le.
Qed.

Lemma chart_rect_vertical (height : Z) :
  (0 <= height)%Z ->
  inject_Z (chart_y_start height) <= inject_Z (chart_y_end height).
Proof.
  intro H. unfold chart_y_start, chart_y_end.
  pose proof (scaled_le height 0.625 H ltac:(discriminate)) as A.
  pose proof (scaled_le height 0.08 H ltac:(discriminate)) as B.
  assert (P : 0 <= inject_Z height)
    by (change 0 with (inject_Z 0); now rewrite <- Zle_Qle).
  unfold Zminus. rewrite inject_Z_plus, inject_Z_opp. lra.
Qed.


(** The baseline locator on a range that contains the baseline. *)
Lemma locate_within (baseline min_p max_p y_start y_end : Q) :
  min_p <= baseline <= max_p -> y_start <= y_end ->
  exists y_base,
    map_range baseline min_p max_p y_end y_start = Ok y_base
    /\ y_start <= y_base <= y_end.
Proof.
  intros [Hlo Hhi] Hy.
  destruct (Qeq_dec min_p max_p) as [E|E].
  - exists ((y_end + y_start) / 2). split.
    + apply map_range_degenerate, E.
    + assert (H2 : (y_end + y_start) / 2 * 2 == y_end + y_start)
        by (field; discriminate).
      split; lra.
  - assert (L : min_p < max_p).
    { destruct (Qlt_le_dec min_p max_p) as [L|L]; [exact L|].
      exfalso. apply E. lra. }
    exists (interpolate baseline min_p max_p y_end y_start). split.
    + apply map_range_interpolate, L.
    + pose proof (interpolate_antitone baseline max_p min_p max_p
                    y_end y_start L Hy Hhi) as A.
      pose proof (interpolate_antitone min_p baseline min_p max_p
                    y_end y_start L Hy Hlo) as B.
      rewrite (interpolate_at_max min_p max_p y_end y_start L) in A.
      rewrite (interpolate_at_min min_p max_p y_end y_start L) in B.
      split; assumption.
Qed.

(** C4.  On a non-empty history the normalizer returns
    [min(min(history), baseline)] and [max(max(history), baseline)], where
    [min(history)] and [max(history)] are the least and greatest sample;
    the range contains the baseline and every sample, and the y coordinate
    of the baseline lies between the top and the bottom of the chart
    rectangle. *)
Theorem series_range_spec (history : list Q) (baseline : Q) (height : Z) :
  history <> [] -> (0 <= height)%Z ->
  exists lo hi min_p max_p y_base,
    py_min history = Ok lo
    /\ (In lo history /\ forall v, In v history -> lo <= v)
    /\ py_max history = Ok hi
    /\ (In hi history /\ forall v, In v history -> v <= hi)
    /\ series_range history baseline = Ok (min_p, max_p)
    /\ min_p == Qmin lo baseline
    /\ max_p == Qmax hi baseline
    /\ min_p <= baseline <= max_p
    /\ (forall v, In v history -> min_p <= v <= max_p)
    /\ map_range baseline min_p max_p
         (inject_Z (chart_y_end height)) (inject_Z (chart_y_start height))
       = Ok y_base
    /\ inject_Z (chart_y_start height) <= y_base
       <= inject_Z (chart_y_end height).
Proof.
  intros Hne Hh.
  destruct (py_min_spec history Hne) as (lo & Elo & Hlo_in & Hlo).
  destruct (py_max_spec history Hne) as (hi & Ehi & Hhi_in & Hhi).
  destruct (py_min2_spec lo baseline) as (_ & Ml & Mb).
  destruct (py_max2_spec hi baseline) as (_ & Xl & Xb).
  assert (Hb : py_min2 lo baseline <= baseline <= py_max2 hi baseline)
    by (split; assumption).
  destruct (locate_within baseline _ _ _ _ Hb (chart_rect_vertical height Hh))
    as (y_base & Ey & Hy).
  exists lo, hi, (py_min2 lo baseline), (py_max2 hi baseline), y_base.
  repeat match goal with |- _ /\ _ => split end;
    try assumption.
  - unfold series_range. rewrite Elo, Ehi. reflexivity.
  - apply py_min2_Qmin.
  - apply py_max2_Qmax.
  - intros v Hv. split.
    + apply Qle_trans with (y := lo); [exact Ml|apply Hlo, Hv].
    + apply Qle_trans with (y := hi); [apply Hhi, Hv|exact Xl].
  - apply Hy.
  - apply Hy.
Qed.

Lemma series_range_spec_witness :
  exists y_base,
    series_range [101; 99; 104] 100 = Ok (99, 104)
    /\ map_range 100 99 104
         (inject_Z (chart_y_end 480)) (inject_Z (chart_y_start 480))
       = Ok y_base
    /\ inject_Z (chart_y_start 480) <= y_base <= inject_Z (chart_y_end 480).
Proof.
  assert (Hne : [101; 99; 104] <> []) by discriminate.
  assert (Hh : (0 <= 480)%Z) by lia.
  destruct (series_range_spec [101; 99; 104] 100 480 Hne Hh)
    as (lo & hi & min_p & max_p & y_base & _ & _ & _ & _ & E & _ & _ & _ & _
        & Ey & Hy).
  vm_compute in E. injection E as <- <-.
  exists y_base. split; [reflexivity|]. split; [exact Ey|exact Hy].
Defined.

(** ** Nothing in the chart raises *)

Lemma project_points_from_ok (rest : list Q) (i n : nat)
    (min_p max_p x_start x_end y_start y_end : Q) :
  exists points,
    project_points_from rest i n min_p max_p x_start x_end y_start y_end
    = Ok points
    /\ Forall2 (fun price p =>
                  map_range price min_p max_p y_end y_start = Ok (snd p))
         rest points.
Proof.
  revert i. induction rest as [|price rest IH]; intro i; simpl.
  - exists []. split; [reflexivity|constructor].
  - destruct (map_range_total (inject_Z (Z.of_nat i)) 0
                (inject_Z (Z.of_nat n - 1)) x_start x_end) as [x Ex].
    destruct (map_range_total price min_p max_p y_end y_start) as [y Ey].
    destruct (IH (S i)) as (points & Ep & Hp).
    rewrite Ex, Ey, Ep. simpl.
    exists ((x, y) :: points). split; [reflexivity|].
    constructor; assumption.
Qed.

Lemma project_points_ok (history : list Q)
    (min_p max_p x_start x_end y_start y_end : Q) :
  exists points,
    project_points history min_p max_p x_start x_end y_start y_end = Ok points
    /\ Forall2 (fun price p =>
                  map_range price min_p max_p y_end y_start = Ok (snd p))
         history points.
Proof. apply project_points_from_ok. Qed.

Lemma draw_segment_ok (p1 p2 : Point) (y_base : Q) (lw : Z) :
  exists ops, draw_segment p1 p2 y_base lw = Ok ops.
Proof.
  destruct p1 as [x1 y1], p2 as [x2 y2]. unfold draw_segment.
  destruct (Qle_bool y1 y_base && Qle_bool y2 y_base) eqn:Eu; [eauto|].
  destruct (Qle_bool y_base y1 && Qle_bool y_base y2) eqn:Ed; [eauto|].
  assert (Hu : ~ bullish y1 y2 y_base)
    by (rewrite <- bullish_test; congruence).
  assert (Hd : ~ bearish y1 y2 y_base)
    by (rewrite <- bearish_test; congruence).
  unfold split_segment.
  rewrite (crossing_point_regular x1 y1 x2 y2 y_base
             (crossing_distinct y1 y2 y_base Hu Hd)).
  simpl. eauto.
Qed.

Lemma draw_segments_ok (points : list Point) (y_base : Q) (lw : Z) :
  exists ops, draw_segments points y_base lw = Ok ops.
Proof.
  induction points as [|p1 rest IH]; [simpl; eauto|].
  destruct rest as [|p2 rest]; [simpl; eauto|].
  destruct IH as [after Ea].
  destruct (draw_segment_ok p1 p2 y_base lw) as [here Eh].
  change (draw_segments (p1 :: p2 :: rest) y_base lw)
    with (here <- draw_segment p1 p2 y_base lw ;;
          after <- draw_segments (p2 :: rest) y_base lw ;;
          Ok (here ++ after)).
  rewrite Eh, Ea. simpl. eauto.
Qed.

Lemma py_last_ok {A : Type} (l : list A) :
  l <> [] -> exists a, py_last l = Ok a /\ In a l.
Proof.
  induction l as [|a l IH]; [congruence|]. intros _.
  destruct l as [|b l].
  - exists a. split; [reflexivity|now left].
  - destruct IH as (z & Ez & Hz); [discriminate|].
    exists z. split; [exact Ez|now right].
Qed.

Lemma long_history_nonempty (history : list Q) :
  (1 <? List.length history)%nat = true -> history <> [].
Proof. destruct history; [discriminate|discriminate]. Qed.

Lemma Forall2_nonempty {A B : Type} (R : A -> B -> Prop) (l : list A)
    (l' : list B) :
  Forall2 R l l' -> l <> [] -> l' <> [].
Proof. intros H. destruct H; congruence. Qed.

(** The chart section, step by step, on a history of two samples or more. *)
Lemma draw_chart_long (width height : Z) (fonts : Fonts) (history : list Q)
    (prev_close : Q) :
  (1 <? List.length history)%nat = true ->
  exists min_p max_p y_base points segments last_pt last_price,
    series_range history prev_close = Ok (min_p, max_p)
    /\ map_range prev_close min_p max_p
         (inject_Z (chart_y_end height)) (inject_Z (chart_y_start height))
       = Ok y_base
    /\ project_points history min_p max_p
         (inject_Z (chart_x_start width)) (inject_Z (chart_x_end width))
         (inject_Z (chart_y_start height)) (inject_Z (chart_y_end height))
       = Ok points
    /\ draw_segments points y_base (line_width_for width) = Ok segments
    /\ py_last points = Ok last_pt
    /\ py_last history = Ok last_price
    /\ draw_chart width height fonts history prev_close
       = Ok (chart_frame width height fonts min_p max_p y_base
             ++ segments
             ++ [end_marker width last_pt last_price prev_close]).
Proof.
  intro Hlen. pose proof (long_history_nonempty history Hlen) as Hne.
  destruct (py_min_spec history Hne) as (lo & Elo & _).
  destruct (py_max_spec history Hne) as (hi & Ehi & _).
  set (min_p := py_min2 lo prev_close). set (max_p := py_max2 hi prev_close).
  assert (Er : series_range history prev_close = Ok (min_p, max_p))
    by (unfold series_range; rewrite Elo, Ehi; reflexivity).
  destruct (map_range_total prev_close min_p max_p
              (inject_Z (chart_y_end height)) (inject_Z (chart_y_start height)))
    as [y_base Ey].
  destruct (project_points_ok history min_p max_p
              (inject_Z (chart_x_start width)) (inject_Z (chart_x_end width))
              (inject_Z (chart_y_start height)) (inject_Z (chart_y_end height)))
    as (points & Ep & Hp).
  destruct (draw_segments_ok points y_base (line_width_for width))
    as [segments Es].
  destruct (py_last_ok points (Forall2_nonempty _ _ _ Hp Hne))
    as (last_pt & El & _).
  destruct (py_last_ok history Hne) as (last_price & Eh & _).
  exists min_p, max_p, y_base, points, segments, last_pt, last_price.
  repeat (split; [assumption|]).
  unfold draw_chart. rewrite Hlen, Er. simpl.
  rewrite Ey. simpl. rewrite Ep. simpl. rewrite Es. simpl.
  rewrite El. simpl. rewrite Eh. reflexivity.
Qed.

Lemma draw_chart_short (width height : Z) (fonts : Fonts) (history : list Q)
    (prev_close : Q) :
  (List.length history <= 1)%nat ->
  draw_chart width height fonts history prev_close = Ok [].
Proof.
  intro H. unfold draw_chart.
  assert (E : (1 <? List.length history)%nat = false)
    by (apply Nat.ltb_ge; exact H).
  now rewrite E.
Qed.

Lemma draw_chart_ok (width height : Z) (fonts : Fonts) (history : list Q)
    (prev_close : Q) :
  exists ops, draw_chart width height fonts history prev_close = Ok ops.
Proof.
  destruct (1 <? List.length history)%nat eqn:E.
  - destruct (draw_chart_long width height fonts history prev_close E)
      as (? & ? & ? & ? & ? & ? & ? & _ & _ & _ & _ & _ & _ & H).
    eauto.
  - unfold draw_chart. rewrite E. eauto.
Qed.

Lemma change_pct_ok (current_price prev_close : Q) :
  exists pct, change_pct current_price prev_close = Ok pct.
Proof.
  destruct (Qeq_dec prev_close 0) as [E|E].
  - eexists. apply change_pct_zero, E.
  - eexists. apply change_pct_nonzero, E.
Qed.

(** ** The dashboard and the whole image *)

Lemma draw_labels_dashboard (width height : Z)
    (labels : list (string * list FPiece))
    (label_x value_x start_y row_height : Z) (font : Font) :
  Forall (dashboard_primitive width height)
    (draw_labels labels label_x value_x start_y row_height font).
Proof.
  revert start_y. induction labels as [|[label value] labels IH]; intro start_y.
  - constructor.
  - simpl. constructor; [discriminate|]. constructor; [discriminate|].
    apply IH.
Qed.

Lemma draw_dashboard_ok (w : World) (width height : Z) (fonts : Fonts)
    (ticker : string) (data : StockData) :
  exists dashboard,
    draw_dashboard w width height fonts ticker data = Ok dashboard
    /\ Forall (dashboard_primitive width height) dashboard.
Proof.
  unfold draw_dashboard.
  destruct (change_pct_ok (data_price data) (data_prev_close data))
    as [pct Ep].
  rewrite Ep. cbn [bind].
  rewrite (pdiv_ok (data_volume data) 1000000) by discriminate. cbn [bind].
  eexists. split; [reflexivity|].
  repeat (constructor; [try discriminate|]).
  - destruct (Qle_bool 0 (change_amt (data_price data) (data_prev_close data)));
      discriminate.
  - reflexivity.
  - repeat (constructor; [discriminate|]). constructor.
Qed.

Lemma get_stock_data_from_none (attempts : nat -> option StockData)
    (attempt remaining : nat) :
  (forall k, (attempt <= k < attempt + remaining)%nat -> attempts k = None) ->
  get_stock_data_from attempts attempt remaining = None.
Proof.
  revert attempt. induction remaining as [|n IH]; intros attempt H.
  - reflexivity.
  - simpl. rewrite (H attempt) by lia. apply IH. intros k Hk. apply H. lia.
Qed.

Lemma generate_image_no_data (w : World) (settings : Settings)
    (device_config : DeviceConfig) :
  get_stock_data w (settings_get (settings_ticker settings) "TSLA")
    (settings_get (settings_period settings) "1d")
    (settings_get (settings_interval settings) "15m") = None ->
  generate_image w settings device_config
  = Ok (mkImage (oriented_dimensions device_config) c_bg
          (draw_failure w (snd (oriented_dimensions device_config))
             (settings_get (settings_ticker settings) "TSLA"))).
Proof.
  intro H. unfold generate_image. rewrite H.
  now destruct (oriented_dimensions device_config) as [width height].
Qed.

Lemma generate_image_data (w : World) (settings : Settings)
    (device_config : DeviceConfig) (data : StockData) :
  get_stock_data w (settings_get (settings_ticker settings) "TSLA")
    (settings_get (settings_period settings) "1d")
    (settings_get (settings_interval settings) "15m") = Some data ->
  let width := fst (oriented_dimensions device_config) in
  let height := snd (oriented_dimensions device_config) in
  exists dashboard chart,
    draw_dashboard w width height (load_fonts w height)
      (settings_get (settings_ticker settings) "TSLA") data = Ok dashboard
    /\ Forall (dashboard_primitive width height) dashboard
    /\ draw_chart width height (load_fonts w height)
         (data_history data) (data_prev_close data) = Ok chart
    /\ generate_image w settings device_config
       = Ok (mkImage (width, height) c_bg (dashboard ++ chart)).
Proof.
  intro H. unfold generate_image. rewrite H.
  destruct (oriented_dimensions device_config) as [width height]. simpl.
  destruct (draw_dashboard_ok w width height (load_fonts w height)
              (settings_get (settings_ticker settings) "TSLA") data)
    as (dashboard & Ed & Hd).
  destruct (draw_chart_ok width height (load_fonts w height)
              (data_history data) (data_prev_close data)) as [chart Ec].
  exists dashboard, chart. rewrite Ed, Ec. simpl. auto.
Qed.

(** C8.  When every attempt of the fetch fails, [get_stock_data] gives
    nothing and the render returns, without raising, the background with a
    single text on it: the failure message, in the colour of a falling
    price.  Nothing of the dashboard or of the chart is drawn. *)
Theorem fetch_failure_fallback (w : World) (settings : Settings)
    (device_config : DeviceConfig) :
  let ticker := settings_get (settings_ticker settings) "TSLA" in
  let period := settings_get (settings_period settings) "1d" in
  let interval := settings_get (settings_interval settings) "15m" in
  let width := fst (oriented_dimensions device_config) in
  let height := snd (oriented_dimensions device_config) in
  (forall attempt, (attempt < retries)%nat ->
                   yf_attempt w ticker period interval attempt = None) ->
  get_stock_data w ticker period interval = None
  /\ generate_image w settings device_config
     = Ok (mkImage (width, height) c_bg
             [DrawText (pt 20 (height / 2))
                [Lit "Failed to fetch data for "; Lit ticker] c_down
                (load_font_error w height)]).
Proof.
  intros ticker period interval width height Hfail.
  assert (E : get_stock_data w ticker period interval = None).
  { unfold get_stock_data. apply get_stock_data_from_none.
    intros k Hk. apply Hfail. lia. }
  split; [exact E|].
  rewrite (generate_image_no_data w settings device_config E).
  unfold width, height, draw_failure.
  now destruct (oriented_dimensions device_config).
Qed.

(** C7.  The render never raises.  On a history of length 0 or 1, whatever
    the baseline, the chart section draws nothing: the image holds the
    dashboard only, that is texts in other colours than the chart captions
    and the rule of the details column; no segment, no baseline, no
    high/low label, no ellipse. *)
Theorem short_history_skips_chart (w : World) (settings : Settings)
    (device_config : DeviceConfig) :
  let ticker := settings_get (settings_ticker settings) "TSLA" in
  let period := settings_get (settings_period settings) "1d" in
  let interval := settings_get (settings_interval settings) "15m" in
  let width := fst (oriented_dimensions device_config) in
  let height := snd (oriented_dimensions device_config) in
  (exists image, generate_image w settings device_config = Ok image)
  /\ (forall (fonts : Fonts) (history : list Q) (baseline : Q),
        (List.length history <= 1)%nat ->
        draw_chart width height fonts history baseline = Ok [])
  /\ (forall data,
        get_stock_data w ticker period interval = Some data ->
        (List.length (data_history data) <= 1)%nat ->
        exists dashboard,
          draw_dashboard w width height (load_fonts w height) ticker data
          = Ok dashboard
          /\ generate_image w settings device_config
             = Ok (mkImage (width, height) c_bg dashboard)
          /\ Forall (dashboard_primitive width height) dashboard).
Proof.
  intros ticker period interval width height. split; [|split].
  - destruct (get_stock_data w ticker period interval) as [data|] eqn:E.
    + destruct (generate_image_data w settings device_config data E)
        as (dashboard & chart & _ & _ & _ & H).
      eauto.
    + rewrite (generate_image_no_data w settings device_config E). eauto.
  - intros fonts history baseline H. apply draw_chart_short, H.
  - intros data E Hlen.
    destruct (generate_image_data w settings device_config data E)
      as (dashboard & chart & Ed & Hd & Ec & H).
    fold width height in Ed, Hd, Ec, H.
    rewrite (draw_chart_short width height _ _ _ Hlen) in Ec.
    injection Ec as <-. rewrite app_nil_r in H.
    exists dashboard. auto.
Qed.

Lemma fetch_failure_fallback_witness :
  get_stock_data world_offline "TSLA" "1d" "15m" = None
  /\ generate_image world_offline default_settings sample_display
     = Ok (mkImage (800, 480)%Z c_bg
             [DrawText (20, 240)
                [Lit "Failed to fetch data for "; Lit "TSLA"] c_down
                DefaultFont]).
Proof.
  apply (fetch_failure_fallback world_offline default_settings sample_display).
  intros attempt _. reflexivity.
Defined.

Lemma short_history_skips_chart_witness :
  exists dashboard,
    generate_image (world_with [101]) default_settings sample_display
    = Ok (mkImage (800, 480)%Z c_bg dashboard)
    /\ Forall (dashboard_primitive 800 480) dashboard
    /\ List.length dashboard = 13%nat.
Proof.
  destruct (proj2 (proj2 (short_history_skips_chart (world_with [101])
                            default_settings sample_display))
              (mkStockData 101 100 100 102 99 1500000 [101])
              eq_refl (le_n 1))
    as (dashboard & Ed & Eg & Hd).
  exists dashboard. split; [exact Eg|]. split; [exact Hd|].
  vm_compute in Ed. injection Ed as <-. reflexivity.
Defined.

(** ** Histories on one side of the baseline *)

Lemma draw_segments_cons (p1 p2 : Point) (rest : list Point) (y_base : Q)
    (lw : Z) :
  draw_segments (p1 :: p2 :: rest) y_base lw
  = (here <- draw_segment p1 p2 y_base lw ;;
     after <- draw_segments (p2 :: rest) y_base lw ;;
     Ok (here ++ after)).
Proof. reflexivity. Qed.

Lemma draw_segments_all_up (points : list Point) (y_base : Q) (lw : Z) :
  Forall (fun p => snd p <= y_base) points ->
  draw_segments points y_base lw = Ok (polyline points c_up lw).
Proof.
  induction points as [|[x1 y1] rest IH]; intro H; [reflexivity|].
  destruct rest as [|[x2 y2] rest]; [reflexivity|].
  inversion H as [|? ? H1 Hrest]; subst.
  inversion Hrest as [|? ? H2 _]; subst. simpl in H1, H2.
  rewrite draw_segments_cons, (IH Hrest).
  rewrite draw_segment_bullish by (split; assumption).
  reflexivity.
Qed.





Lemma marker_fill (width : Z) (last_pt : Point) (last_price prev_close : Q) :
  (primitive_fill (end_marker width last_pt last_price prev_close) = c_up
   <-> prev_close <= last_price)
  /\ (primitive_fill (end_marker width last_pt last_price prev_close) = c_down
      <-> last_price < prev_close).
Proof.
  unfold end_marker. simpl.
  destruct (Qle_bool prev_close last_price) eqn:E.
  - apply Qle_bool_iff in E. repeat split; try tauto; try discriminate.
    intro L. lra.
  - apply Qle_bool_false_iff in E. repeat split; try tauto; try discriminate.
    intro L. lra.
Qed.

Lemma py_last_in {A : Type} (l : list A) (a : A) : py_last l = Ok a -> In a l.
Proof.
  induction l as [|b l IH]; [discriminate|].
  destruct l as [|c l].
  - simpl. intro E. injection E as <-. now left.
  - intro E. right. apply IH. exact E.
Qed.




(** ** The model run on samples *)

(** Two samples across the baseline: one pair, split at the middle of the
    chart, red below the baseline and green above it. *)
Example chart_of_crossing_pair :
  reduced (draw_chart 800 480 all_default [99; 101] 100)
  = Ok [ DrawText (24, 276) [Lit "High: "; Num ".2f" 101] c_grid DefaultFont;
         DrawText (24, 447) [Lit "Low: "; Num ".2f" 99] c_grid DefaultFont;
         DrawLine (24, 371) (776, 371) c_grid 2;
         DrawText (716, 351) [Lit "Prev"] c_grid DefaultFont;
         DrawLine (24, 442) (400, 371) c_down 4;
         DrawLine (400, 371) (776, 300) c_up 4;
         DrawEllipse (768, 292, 784, 308) c_up ].
Proof. vm_compute. reflexivity. Qed.

(** A flat history on the baseline: the range is degenerate, every point is
    at mid height and every segment is up. *)
Example chart_of_flat_history :
  reduced (draw_chart 800 480 all_default [100; 100; 100] 100)
  = Ok [ DrawText (24, 276) [Lit "High: "; Num ".2f" 100] c_grid DefaultFont;
         DrawText (24, 447) [Lit "Low: "; Num ".2f" 100] c_grid DefaultFont;
         DrawLine (24, 371) (776, 371) c_grid 2;
         DrawText (716, 351) [Lit "Prev"] c_grid DefaultFont;
         DrawLine (24, 371) (400, 371) c_up 4;
         DrawLine (400, 371) (776, 371) c_up 4;
         DrawEllipse (768, 363, 784, 379) c_up ].
Proof. vm_compute. reflexivity. Qed.

Example chart_of_single_sample :
  draw_chart 800 480 all_default [100] 100 = Ok [].
Proof. reflexivity. Qed.

(** The fetch is tried three times and no more. *)
Example fetch_gives_up_after_three :
  get_stock_data_from
    (fun attempt => if (attempt <? 3)%nat then None
                    else Some (mkStockData 101 100 100 102 99 1500000 []))
    0 retries
  = None.
Proof. reflexivity. Qed.

Example fetch_third_attempt :
  get_stock_data_from
    (fun attempt => if (attempt <? 2)%nat then None
                    else Some (mkStockData 101 100 100 102 99 1500000 []))
    0 retries
  = Some (mkStockData 101 100 100 102 99 1500000 []).
Proof. reflexivity. Qed.

(** ** The retry loop *)

Lemma get_stock_data_from_some (attempts : nat -> option StockData)
    (attempt remaining : nat) (data : StockData) :
  get_stock_data_from attempts attempt remaining = Some data
  <-> exists k,
        (attempt <= k < attempt + remaining)%nat
        /\ attempts k = Some data
        /\ forall j, (attempt <= j < k)%nat -> attempts j = None.
Proof.
  revert attempt. induction remaining as [|n IH]; intro attempt; simpl.
  - split; [discriminate|]. intros (k & Hk & _). lia.
  - destruct (attempts attempt) as [d|] eqn:E.
    + split.
      * intro H. exists attempt. split; [lia|]. split; [congruence|].
        intros j Hj. lia.
      * intros (k & Hk & Ek & Hbefore).
        destruct (Nat.eq_dec k attempt) as [->|Hne]; [congruence|].
        rewrite (Hbefore attempt) in E by lia. discriminate.
    + rewrite IH. split.
      * intros (k & Hk & Ek & Hbefore). exists k.
        split; [lia|]. split; [exact Ek|].
        intros j Hj. destruct (Nat.eq_dec j attempt) as [->|Hne];
          [exact E|apply Hbefore; lia].
      * intros (k & Hk & Ek & Hbefore). exists k.
        assert (k <> attempt) by congruence.
        split; [lia|]. split; [exact Ek|].
        intros j Hj. apply Hbefore. lia.
Qed.

Lemma get_stock_data_from_none_iff (attempts : nat -> option StockData)
    (attempt remaining : nat) :
  get_stock_data_from attempts attempt remaining = None
  <-> forall k, (attempt <= k < attempt + remaining)%nat -> attempts k = None.
Proof.
  split; [|apply get_stock_data_from_none].
  revert attempt. induction remaining as [|n IH]; intros attempt H k Hk.
  - lia.
  - simpl in H. destruct (attempts attempt) as [d|] eqn:E; [discriminate|].
    destruct (Nat.eq_dec k attempt) as [->|Hne]; [exact E|].
    apply (IH (S attempt) H). lia.
Qed.

(** X1.  [get_stock_data] returns the data of the first attempt that
    succeeds among the first three, and nothing exactly when all three
    fail. *)
Theorem get_stock_data_first_success (w : World)
    (ticker period interval : string) :
  (forall data,
     get_stock_data w ticker period interval = Some data
     <-> exists k,
           (k < retries)%nat
           /\ yf_attempt w ticker period interval k = Some data
           /\ forall j, (j < k)%nat ->
                        yf_attempt w ticker period interval j = None)
  /\ (get_stock_data w ticker period interval = None
      <-> forall k, (k < retries)%nat ->
                    yf_attempt w ticker period interval k = None).
Proof.
  unfold get_stock_data. split.
  - intro data. rewrite get_stock_data_from_some. split.
    + intros (k & Hk & Ek & Hb). exists k. split; [lia|]. split; [exact Ek|].
      intros j Hj. apply Hb. lia.
    + intros (k & Hk & Ek & Hb). exists k. split; [lia|]. split; [exact Ek|].
      intros j Hj. apply Hb. lia.
  - rewrite get_stock_data_from_none_iff. split.
    + intros H k Hk. apply H. lia.
    + intros H k Hk. apply H. lia.
Qed.

Lemma get_stock_data_from_ext (attempts attempts' : nat -> option StockData)
    (attempt remaining : nat) :
  (forall k, (attempt <= k < attempt + remaining)%nat ->
             attempts k = attempts' k) ->
  get_stock_data_from attempts attempt remaining
  = get_stock_data_from attempts' attempt remaining.
Proof.
  revert attempt. induction remaining as [|n IH]; intros attempt H.
  - reflexivity.
  - simpl. rewrite <- (H attempt) by lia.
    destruct (attempts attempt); [reflexivity|].
    apply IH. intros k Hk. apply H. lia.
Qed.

(** X2.  A fourth attempt is never made: two feeds that answer alike on
    the first three attempts give the same result. *)
Theorem get_stock_data_three_attempts (w w' : World)
    (ticker period interval : string) :
  (forall k, (k < retries)%nat ->
             yf_attempt w ticker period interval k
             = yf_attempt w' ticker period interval k) ->
  get_stock_data w ticker period interval
  = get_stock_data w' ticker period interval.
Proof.
  intro H. unfold get_stock_data. apply get_stock_data_from_ext.
  intros k Hk. apply H. lia.
Qed.

Lemma get_stock_data_three_attempts_witness :
  get_stock_data world_offline "TSLA" "1d" "15m"
  = get_stock_data
      (mkWorld (fun _ _ _ k =>
                  if (k <? 3)%nat then None
                  else Some (mkStockData 101 100 100 102 99 1500000 []))
         (fun _ => true) "Mon 10:00" (fun _ _ => 90))
      "TSLA" "1d" "15m".
Proof.
  apply (get_stock_data_three_attempts world_offline).
  intros k Hk. unfold retries in Hk.
  destruct k as [|[|[|k]]]; [reflexivity|reflexivity|reflexivity|lia].
Defined.

Lemma get_stock_data_log_result (attempts : nat -> option StockData)
    (attempt remaining : nat) :
  fst (get_stock_data_log attempts attempt remaining)
  = get_stock_data_from attempts attempt remaining.
Proof.
  revert attempt. induction remaining as [|n IH]; intro attempt; simpl.
  - reflexivity.
  - destruct (attempts attempt); [reflexivity|].
    rewrite <- IH.
    now destruct (get_stock_data_log attempts (S attempt) n).
Qed.

Lemma slept_all_fail (attempts : nat -> option StockData)
    (attempt remaining : nat) :
  (forall k, (attempt <= k < attempt + remaining)%nat -> attempts k = None) ->
  slept (snd (get_stock_data_log attempts attempt remaining))
  = (retry_delay * Z.of_nat remaining)%Z.
Proof.
  revert attempt. induction remaining as [|n IH]; intros attempt H.
  - simpl. lia.
  - cbn [get_stock_data_log]. rewrite (H attempt) by lia.
    specialize (IH (S attempt)).
    destruct (get_stock_data_log attempts (S attempt) n) as [data events].
    cbn [snd slept] in *. rewrite IH; [lia|].
    intros k Hk. apply H. lia.
Qed.

Lemma slept_first_success (attempts : nat -> option StockData)
    (attempt remaining k : nat) (data : StockData) :
  (attempt <= k < attempt + remaining)%nat ->
  attempts k = Some data ->
  (forall j, (attempt <= j < k)%nat -> attempts j = None) ->
  slept (snd (get_stock_data_log attempts attempt remaining))
  = (retry_delay * Z.of_nat (k - attempt))%Z.
Proof.
  revert attempt. induction remaining as [|n IH]; intros attempt Hk Ek Hb.
  - lia.
  - cbn [get_stock_data_log].
    destruct (Nat.eq_dec k attempt) as [->|Hne].
    + rewrite Ek. simpl. replace (attempt - attempt)%nat with 0%nat by lia.
      simpl. lia.
    + rewrite (Hb attempt) by lia.
      specialize (IH (S attempt)).
      destruct (get_stock_data_log attempts (S attempt) n) as [d events].
      cbn [snd slept] in *. rewrite IH.
      * replace (k - attempt)%nat with (S (k - S attempt)) by lia. lia.
      * lia.
      * exact Ek.
      * intros j Hj. apply Hb. lia.
Qed.

(** X3.  The loop with its pauses returns what [get_stock_data] returns.
    It sleeps five seconds after every failed attempt, the last one
    included: [5 * k] seconds when attempt [k] is the first to succeed and
    fifteen seconds when all three fail. *)
Theorem get_stock_data_pauses (attempts : nat -> option StockData) :
  fst (get_stock_data_log attempts 0 retries)
  = get_stock_data_from attempts 0 retries
  /\ (forall k data,
        (k < retries)%nat -> attempts k = Some data ->
        (forall j, (j < k)%nat -> attempts j = None) ->
        slept (snd (get_stock_data_log attempts 0 retries))
        = (5 * Z.of_nat k)%Z)
  /\ ((forall k, (k < retries)%nat -> attempts k = None) ->
      slept (snd (get_stock_data_log attempts 0 retries)) = 15%Z).
Proof.
  split; [apply get_stock_data_log_result|]. split.
  - intros k data Hk Ek Hb.
    rewrite (slept_first_success attempts 0 retries k data).
    + now rewrite Nat.sub_0_r.
    + lia.
    + exact Ek.
    + intros j Hj. apply Hb. lia.
  - intro H. rewrite slept_all_fail; [reflexivity|].
    intros k Hk. apply H. lia.
Qed.

Lemma get_stock_data_pauses_witness :
  slept (snd (get_stock_data_log
                (fun k => if (k <? 2)%nat then None
                          else Some (mkStockData 101 100 100 102 99 1500000 []))
                0 retries)) = 10%Z
  /\ slept (snd (get_stock_data_log (fun _ => None) 0 retries)) = 15%Z.
Proof.
  split.
  - apply (proj1 (proj2 (get_stock_data_pauses _)) 2%nat
             (mkStockData 101 100 100 102 99 1500000 [])).
    + unfold retries. lia.
    + reflexivity.
    + intros j Hj. destruct j as [|[|j]]; [reflexivity|reflexivity|lia].
  - apply (proj2 (proj2 (get_stock_data_pauses (fun _ => None)))).
    intros k _. reflexivity.
Defined.
(** ** More on the range mapper *)

Lemma interpolate_monotone (v1 v2 in_min in_max out_min out_max : Q) :
  in_min < in_max -> out_min <= out_max -> v1 <= v2 ->
  interpolate v1 in_min in_max out_min out_max
  <= interpolate v2 in_min in_max out_min out_max.
Proof.
  intros Hin Hout Hv.
  pose proof (interpolate_scaled v1 in_min in_max out_min out_max Hin) as E1.
  pose proof (interpolate_scaled v2 in_min in_max out_min out_max Hin) as E2.
  set (i1 := interpolate v1 in_min in_max out_min out_max) in *.
  set (i2 := interpolate v2 in_min in_max out_min out_max) in *.
  nra.
Qed.


(** X4.  Mapping back undoes mapping: on two non-degenerate ranges,
    [map_range] from the output range to the input range sends the image of
    a value back to that value. *)
Theorem map_range_round_trip (value in_min in_max out_min out_max : Q) :
  ~ in_min == in_max -> ~ out_min == out_max ->
  exists mapped back,
    map_range value in_min in_max out_min out_max = Ok mapped
    /\ map_range mapped out_min out_max in_min in_max = Ok back
    /\ back == value.
Proof.
  intros Hin Hout.
  eexists. eexists.
  split; [apply map_range_regular, Hin|].
  split; [apply map_range_regular, Hout|].
  field. split; intro E; [apply Hout|apply Hin]; lra.
Qed.

Lemma map_range_round_trip_witness :
  exists mapped back,
    map_range 101 99 104 442 300 = Ok mapped
    /\ map_range mapped 442 300 99 104 = Ok back
    /\ back == 101.
Proof.
  apply (map_range_round_trip 101 99 104 442 300); discriminate.
Defined.






(** ** The chart rectangle and the projected points *)

Lemma scaled_nonneg (n : Z) (c : Q) :
  (0 <= n)%Z -> 0 <= c -> (0 <= scaled n c)%Z.
Proof.
  intros Hn Hc. unfold scaled, py_int.
  assert (H0 : 0 <= inject_Z n * c).
  { apply Qmult_le_0_compat; [|exact Hc].
    change 0 with (inject_Z 0). now rewrite <- Zle_Qle. }
  rewrite (proj2 (Qle_bool_iff _ _) H0).
  change 0%Z with (Qfloor 0). apply Qfloor_resp_le, H0.
Qed.

Lemma chart_rect_horizontal (width : Z) :
  (0 <= width)%Z ->
  inject_Z (chart_x_start width) <= inject_Z (chart_x_end width).
Proof.
  intro H. unfold chart_x_start, chart_x_end.
  pose proof (scaled_le width 0.03 H ltac:(discriminate)) as A.
  assert (P : 0 <= inject_Z width)
    by (change 0 with (inject_Z 0); now rewrite <- Zle_Qle).
  unfold Zminus. rewrite inject_Z_plus, inject_Z_opp. lra.
Qed.

(** X8.  On a display of non-negative size the chart rectangle lies inside
    the image, with its left edge not right of its right edge and its top
    not below its bottom. *)
Theorem chart_rect_inside_image (width height : Z) :
  (0 <= width)%Z -> (0 <= height)%Z ->
  (0 <= chart_x_start width <= chart_x_end width)%Z
  /\ (chart_x_end width <= width)%Z
  /\ (0 <= chart_y_start height <= chart_y_end height)%Z
  /\ (chart_y_end height <= height)%Z.
Proof.
  intros Hw Hh.
  pose proof (scaled_nonneg width 0.03 Hw ltac:(discriminate)) as A.
  pose proof (scaled_nonneg height 0.625 Hh ltac:(discriminate)) as B.
  pose proof (scaled_nonneg height 0.08 Hh ltac:(discriminate)) as C.
  pose proof (chart_rect_horizontal width Hw) as D.
  pose proof (chart_rect_vertical height Hh) as E.
  rewrite <- Zle_Qle in D, E.
  unfold chart_x_start, chart_x_end, chart_y_start, chart_y_end in *.
  lia.
Qed.

Lemma chart_rect_inside_image_witness :
  (0 <= chart_x_start 800 <= chart_x_end 800)%Z
  /\ (chart_x_end 800 <= 800)%Z
  /\ (0 <= chart_y_start 480 <= chart_y_end 480)%Z
  /\ (chart_y_end 480 <= 480)%Z.
Proof.
  apply (chart_rect_inside_image 800 480); lia.
Defined.

(** The sample and the index behind each projected point. *)
Lemma project_points_from_nth (rest : list Q) (i n : nat)
    (min_p max_p x_start x_end y_start y_end : Q) (points : list Point) :
  project_points_from rest i n min_p max_p x_start x_end y_start y_end
  = Ok points ->
  List.length points = List.length rest
  /\ forall k p,
       nth_error points k = Some p ->
       exists price,
         nth_error rest k = Some price
         /\ map_range (inject_Z (Z.of_nat (i + k))) 0
              (inject_Z (Z.of_nat n - 1)) x_start x_end = Ok (fst p)
         /\ map_range price min_p max_p y_end y_start = Ok (snd p).
Proof.
  revert i points. induction rest as [|price rest IH]; intros i points E.
  - simpl in E. injection E as <-. split; [reflexivity|].
    intros [|k] p H; discriminate.
  - simpl in E.
    destruct (map_range (inject_Z (Z.of_nat i)) 0 (inject_Z (Z.of_nat n - 1))
                x_start x_end) as [x|] eqn:Ex; [|discriminate].
    destruct (map_range price min_p max_p y_end y_start) as [y|] eqn:Ey;
      [|discriminate].
    simpl in E.
    destruct (project_points_from rest (S i) n min_p max_p x_start x_end
                y_start y_end) as [points'|] eqn:Ep; [|discriminate].
    simpl in E. injection E as <-.
    destruct (IH (S i) points' Ep) as [Hlen Hnth].
    split; [simpl; now rewrite Hlen|].
    intros [|k] p H.
    + simpl in H. injection H as <-. exists price.
      rewrite Nat.add_0_r. auto.
    + simpl in H. destruct (Hnth k p H) as (price' & A & B & C).
      exists price'. split; [exact A|]. split; [|exact C].
      replace (i + S k)%nat with (S i + k)%nat by lia. exact B.
Qed.

(** X9.  The projector returns one point per sample, in order: the point
    of index [k] has [x = map_range(k, 0, len - 1, x_start, x_end)] and
    [y = map_range(price_k, min_p, max_p, y_end, y_start)]. *)
Theorem project_points_pointwise (history : list Q)
    (min_p max_p x_start x_end y_start y_end : Q) :
  exists points,
    project_points history min_p max_p x_start x_end y_start y_end = Ok points
    /\ List.length points = List.length history
    /\ forall k p,
         nth_error points k = Some p ->
         exists price,
           nth_error history k = Some price
           /\ map_range (inject_Z (Z.of_nat k)) 0
                (inject_Z (Z.of_nat (List.length history) - 1))
                x_start x_end = Ok (fst p)
           /\ map_range price min_p max_p y_end y_start = Ok (snd p).
Proof.
  destruct (project_points_ok history min_p max_p x_start x_end y_start y_end)
    as (points & E & _).
  exists points. split; [exact E|].
  apply (project_points_from_nth history 0 (List.length history)), E.
Qed.

Lemma map_range_increasing_within (value in_min in_max out_min out_max : Q) :
  in_min <= value <= in_max -> out_min <= out_max ->
  exists r,
    map_range value in_min in_max out_min out_max = Ok r
    /\ out_min <= r <= out_max.
Proof.
  intros [Hlo Hhi] Hout.
  destruct (Qeq_dec in_min in_max) as [E|E].
  - exists ((out_min + out_max) / 2). split; [apply map_range_degenerate, E|].
    assert (H2 : (out_min + out_max) / 2 * 2 == out_min + out_max)
      by (field; discriminate).
    split; lra.
  - assert (L : in_min < in_max).
    { destruct (Qlt_le_dec in_min in_max) as [L|L]; [exact L|].
      exfalso. apply E. lra. }
    exists (interpolate value in_min in_max out_min out_max).
    split; [apply map_range_interpolate, L|].
    pose proof (interpolate_monotone in_min value in_min in_max
                  out_min out_max L Hout Hlo) as U.
    pose proof (interpolate_monotone value in_max in_min in_max
                  out_min out_max L Hout Hhi) as V.
    rewrite (interpolate_at_min in_min in_max out_min out_max L) in U.
    rewrite (interpolate_at_max in_min in_max out_min out_max L) in V.
    split; assumption.
Qed.

Lemma index_in_range (k n : nat) :
  (k < n)%nat ->
  0 <= inject_Z (Z.of_nat k) <= inject_Z (Z.of_nat n - 1).
Proof.
  intro H. split.
  - change 0 with (inject_Z 0). rewrite <- Zle_Qle. lia.
  - rewrite <- Zle_Qle. lia.
Qed.

Lemma series_range_contains (history : list Q) (prev_close : Q) :
  history <> [] ->
  exists min_p max_p,
    series_range history prev_close = Ok (min_p, max_p)
    /\ min_p <= prev_close <= max_p
    /\ forall v, In v history -> min_p <= v <= max_p.
Proof.
  intro Hne.
  destruct (py_min_spec history Hne) as (lo & Elo & _ & Hlo).
  destruct (py_max_spec history Hne) as (hi & Ehi & _ & Hhi).
  destruct (py_min2_spec lo prev_close) as (_ & Ml & Mb).
  destruct (py_max2_spec hi prev_close) as (_ & Xl & Xb).
  exists (py_min2 lo prev_close), (py_max2 hi prev_close).
  split; [unfold series_range; rewrite Elo, Ehi; reflexivity|].
  split; [split; assumption|].
  intros v Hv. split.
  - apply Qle_trans with (y := lo); [exact Ml|apply Hlo, Hv].
  - apply Qle_trans with (y := hi); [apply Hhi, Hv|exact Xl].
Qed.

(** X10.  On a display of non-negative size every projected point of a
    non-empty history lies inside the chart rectangle. *)
Theorem projected_points_in_rect (width height : Z) (history : list Q)
    (prev_close : Q) :
  (0 <= width)%Z -> (0 <= height)%Z -> history <> [] ->
  exists min_p max_p points,
    series_range history prev_close = Ok (min_p, max_p)
    /\ project_points history min_p max_p
         (inject_Z (chart_x_start width)) (inject_Z (chart_x_end width))
         (inject_Z (chart_y_start height)) (inject_Z (chart_y_end height))
       = Ok points
    /\ Forall (fun p : Point =>
                 inject_Z (chart_x_start width) <= fst p
                 <= inject_Z (chart_x_end width)
                 /\ inject_Z (chart_y_start height) <= snd p
                    <= inject_Z (chart_y_end height))
         points.
Proof.
  intros Hw Hh Hne.
  destruct (series_range_contains history prev_close Hne)
    as (min_p & max_p & Er & _ & Hall).
  destruct (project_points_ok history min_p max_p
              (inject_Z (chart_x_start width)) (inject_Z (chart_x_end width))
              (inject_Z (chart_y_start height)) (inject_Z (chart_y_end height)))
    as (points & Ep & _).
  exists min_p, max_p, points. split; [exact Er|]. split; [exact Ep|].
  destruct (project_points_from_nth _ _ _ _ _ _ _ _ _ _ Ep) as [Hlen Hnth].
  apply Forall_forall. intros p Hin.
  destruct (In_nth_error _ _ Hin) as [k Hk].
  destruct (Hnth k p Hk) as (price & Hprice & Ex & Ey).
  assert (Hlt : (k < List.length history)%nat)
    by (apply nth_error_Some; congruence).
  destruct (map_range_increasing_within _ _ _ _ _
              (index_in_range k (List.length history) Hlt)
              (chart_rect_horizontal width Hw)) as (x & Ex' & Hx).
  destruct (locate_within price min_p max_p _ _
              (Hall price (nth_error_In _ _ Hprice))
              (chart_rect_vertical height Hh)) as (y & Ey' & Hy).
  simpl in Ex. rewrite Ex in Ex'. injection Ex' as <-.
  rewrite Ey in Ey'. injection Ey' as <-.
  split; assumption.
Qed.

Lemma projected_points_in_rect_witness :
  exists points,
    project_points [101; 99; 104] 99 104
      (inject_Z (chart_x_start 800)) (inject_Z (chart_x_end 800))
      (inject_Z (chart_y_start 480)) (inject_Z (chart_y_end 480))
    = Ok points
    /\ Forall (fun p : Point =>
                 inject_Z (chart_x_start 800) <= fst p
                 <= inject_Z (chart_x_end 800)
                 /\ inject_Z (chart_y_start 480) <= snd p
                    <= inject_Z (chart_y_end 480))
         points.
Proof.
  assert (Hw : (0 <= 800)%Z) by lia.
  assert (Hh : (0 <= 480)%Z) by lia.
  assert (Hne : [101; 99; 104] <> []) by discriminate.
  destruct (projected_points_in_rect 800 480 [101; 99; 104] 100 Hw Hh Hne)
    as (min_p & max_p & points & Er & Ep & H).
  vm_compute in Er. injection Er as <- <-.
  exists points. split; [exact Ep|exact H].
Defined.

(** X11.  On a history of two samples or more the points are evenly spaced
    from the left edge to the right edge: the point of index [k] is at
    [x_start + k * (x_end - x_start) / (len - 1)], the first one at
    [x_start] and the last one at [x_end]. *)
Theorem projected_x_evenly_spaced (history : list Q)
    (min_p max_p x_start x_end y_start y_end : Q) :
  (2 <= List.length history)%nat ->
  exists points,
    project_points history min_p max_p x_start x_end y_start y_end = Ok points
    /\ (forall k p,
          nth_error points k = Some p ->
          fst p == x_start
                   + inject_Z (Z.of_nat k) * (x_end - x_start)
                     / inject_Z (Z.of_nat (List.length history) - 1))
    /\ (forall p, nth_error points 0 = Some p -> fst p == x_start)
    /\ (forall p, nth_error points (List.length history - 1) = Some p ->
                  fst p == x_end).
Proof.
  intro Hlen.
  destruct (project_points_ok history min_p max_p x_start x_end y_start y_end)
    as (points & Ep & _).
  exists points. split; [exact Ep|].
  destruct (project_points_from_nth _ _ _ _ _ _ _ _ _ _ Ep) as [_ Hnth].
  assert (Hn : 0 < inject_Z (Z.of_nat (List.length history) - 1)).
  { change 0 with (inject_Z 0). rewrite <- Zlt_Qlt. lia. }
  assert (Hx : forall k p,
             nth_error points k = Some p ->
             fst p == x_start
                      + inject_Z (Z.of_nat k) * (x_end - x_start)
                        / inject_Z (Z.of_nat (List.length history) - 1)).
  { intros k p Hk. destruct (Hnth k p Hk) as (_ & _ & Ex & _).
    simpl in Ex. rewrite (map_range_interpolate _ _ _ _ _ Hn) in Ex.
    injection Ex as Ex. rewrite <- Ex. unfold interpolate. field. lra. }
  split; [exact Hx|]. split.
  - intros p Hp. rewrite (Hx 0%nat p Hp). simpl. field. lra.
  - intros p Hp. rewrite (Hx _ p Hp).
    replace (Z.of_nat (List.length history - 1))
      with (Z.of_nat (List.length history) - 1)%Z by lia.
    field. lra.
Qed.

Lemma projected_x_evenly_spaced_witness :
  exists points,
    project_points [101; 99; 104] 99 104 24 776 300 442 = Ok points
    /\ (forall p, nth_error points 0 = Some p -> fst p == 24)
    /\ (forall p, nth_error points 2 = Some p -> fst p == 776).
Proof.
  destruct (projected_x_evenly_spaced [101; 99; 104] 99 104 24 776 300 442)
    as (points & E & _ & H0 & H2); [simpl; lia|].
  exists points. split; [exact E|]. split; [exact H0|exact H2].
Defined.

(** ** The segments as a whole *)

(** The three outcomes of the loop body. *)
Lemma draw_segment_cases (x1 y1 x2 y2 y_base : Q) (lw : Z) :
  (y1 <= y_base /\ y2 <= y_base
   /\ draw_segment (x1, y1) (x2, y2) y_base lw
      = Ok [DrawLine (x1, y1) (x2, y2) c_up lw])
  \/ (y_base <= y1 /\ y_base <= y2
      /\ draw_segment (x1, y1) (x2, y2) y_base lw
         = Ok [DrawLine (x1, y1) (x2, y2) c_down lw])
  \/ (exists color_1 color_2,
        draw_segment (x1, y1) (x2, y2) y_base lw
        = Ok [DrawLine (x1, y1)
                (x1 + (x2 - x1) * ((y_base - y1) / (y2 - y1)), y_base)
                color_1 lw;
              DrawLine (x1 + (x2 - x1) * ((y_base - y1) / (y2 - y1)), y_base)
                (x2, y2) color_2 lw]
        /\ ((y1 < y_base /\ y_base < y2
             /\ color_1 = c_up /\ color_2 = c_down)
            \/ (y2 < y_base /\ y_base < y1
                /\ color_1 = c_down /\ color_2 = c_up))).
Proof.
  destruct (Qlt_le_dec y_base y1) as [A|A];
    destruct (Qlt_le_dec y_base y2) as [B|B].
  - right. left. split; [lra|]. split; [lra|].
    apply draw_segment_bearish.
    + unfold bullish. intros [U _]. lra.
    + unfold bearish. split; lra.
  - destruct (Qeq_dec y2 y_base) as [E|E].
    + right. left. split; [lra|]. split; [lra|].
      apply draw_segment_bearish.
      * unfold bullish. intros [U _]. lra.
      * unfold bearish. split; lra.
    + assert (B' : y2 < y_base).
      { destruct (Qlt_le_dec y2 y_base) as [L|L]; [exact L|].
        exfalso. apply E. lra. }
      right. right.
      exists c_down, c_up. split.
      * rewrite draw_segment_crossing.
        -- unfold split_segment.
           rewrite crossing_point_regular by lra. cbn [bind].
           rewrite (proj2 (Qlt_bool_false_iff y1 y_base)) by lra.
           rewrite (proj2 (Qlt_bool_iff y2 y_base) B'). reflexivity.
        -- unfold bullish. intros [U _]. lra.
        -- unfold bearish. intros [_ U]. lra.
      * right. auto.
  - destruct (Qeq_dec y1 y_base) as [E|E].
    + right. left. split; [lra|]. split; [lra|].
      apply draw_segment_bearish.
      * unfold bullish. intros [_ U]. lra.
      * unfold bearish. split; lra.
    + assert (A' : y1 < y_base).
      { destruct (Qlt_le_dec y1 y_base) as [L|L]; [exact L|].
        exfalso. apply E. lra. }
      right. right.
      exists c_up, c_down. split.
      * rewrite draw_segment_crossing.
        -- unfold split_segment.
           rewrite crossing_point_regular by lra. cbn [bind].
           rewrite (proj2 (Qlt_bool_iff y1 y_base) A').
           rewrite (proj2 (Qlt_bool_false_iff y2 y_base)) by lra. reflexivity.
        -- unfold bullish. intros [_ U]. lra.
        -- unfold bearish. intros [U _]. lra.
      * left. auto.
  - left. split; [exact A|]. split; [exact B|].
    apply draw_segment_bullish. split; assumption.
Qed.

(** What one adjacent pair contributes: one or two lines, end to end from
    the first point to the second, each in the colour of its side. *)
Lemma draw_segment_shape (p1 p2 : Point) (y_base : Q) (lw : Z) :
  exists here,
    draw_segment p1 p2 y_base lw = Ok here
    /\ chain p1 here p2
    /\ Forall (segment_line y_base lw) here
    /\ (1 <= List.length here <= 2)%nat.
Proof.
  destruct p1 as [x1 y1], p2 as [x2 y2].
  destruct (draw_segment_cases x1 y1 x2 y2 y_base lw)
    as [(A & B & E)|[(A & B & E)|(c1 & c2 & E & H)]];
    rewrite E; eexists; (split; [reflexivity|]).
  - split; [simpl; auto|]. split; [|simpl; lia].
    constructor; [|constructor]. simpl. auto.
  - split; [simpl; auto|]. split; [|simpl; lia].
    constructor; [|constructor]. simpl. auto.
  - split; [simpl; auto|]. split; [|simpl; lia].
    destruct H as [(A & B & -> & ->)|(A & B & -> & ->)];
      (constructor; [|constructor; [|constructor]]); simpl;
      (split; [reflexivity|]).
    + left. split; [reflexivity|]. split; lra.
    + right. split; [reflexivity|]. split; lra.
    + right. split; [reflexivity|]. split; lra.
    + left. split; [reflexivity|]. split; lra.
Qed.

Lemma chain_app (a b c : Point) (l1 l2 : list DrawPrimitive) :
  chain a l1 b -> chain b l2 c -> chain a (l1 ++ l2) c.
Proof.
  revert a. induction l1 as [|op l1 IH]; intros a H1 H2.
  - simpl in H1. subst. exact H2.
  - destruct op as [| p1 p2 fill width |]; simpl in *; try contradiction.
    destruct H1 as [-> H1]. split; [reflexivity|]. now apply IH.
Qed.

Lemma draw_segments_shape (points : list Point) (y_base : Q) (lw : Z)
    (first : Point) :
  hd_error points = Some first ->
  exists segments last,
    draw_segments points y_base lw = Ok segments
    /\ py_last points = Ok last
    /\ chain first segments last
    /\ Forall (segment_line y_base lw) segments
    /\ (List.length points - 1 <= List.length segments
        <= 2 * (List.length points - 1))%nat.
Proof.
  revert first. induction points as [|p1 rest IH]; intros first H.
  - discriminate.
  - simpl in H. injection H as <-.
    destruct rest as [|p2 rest].
    + exists [], p1. simpl. repeat split; auto.
    + destruct (IH p2 eq_refl) as (after & last & Ea & El & Hc & Hs & Hn).
      destruct (draw_segment_shape p1 p2 y_base lw)
        as (here & Eh & Hc' & Hs' & Hn').
      exists (here ++ after), last.
      rewrite draw_segments_cons, Eh, Ea. cbn [bind].
      split; [reflexivity|]. split; [exact El|].
      split; [apply (chain_app p1 p2 last); assumption|].
      split; [apply Forall_app; split; assumption|].
      rewrite length_app. simpl in *. lia.
Qed.

(** X12.  The classifier draws between one and two lines per adjacent
    pair: for [n >= 1] points, at least [n - 1] and at most [2 * (n - 1)]
    lines, and none for a single point. *)
Theorem draw_segments_count (points : list Point) (y_base : Q) (lw : Z) :
  points <> [] ->
  exists segments,
    draw_segments points y_base lw = Ok segments
    /\ (List.length points - 1 <= List.length segments
        <= 2 * (List.length points - 1))%nat.
Proof.
  intro Hne. destruct points as [|p rest]; [congruence|].
  destruct (draw_segments_shape (p :: rest) y_base lw p eq_refl)
    as (segments & last & E & _ & _ & _ & H).
  exists segments. split; assumption.
Qed.

Lemma draw_segments_count_witness :
  exists segments,
    draw_segments [(0, 50); (10, 150); (20, 160)] 100 2 = Ok segments
    /\ (2 <= List.length segments <= 4)%nat.
Proof.
  apply (draw_segments_count [(0, 50); (10, 150); (20, 160)] 100 2).
  discriminate.
Defined.

(** X13.  The lines of the classifier form one unbroken path: the first
    starts at the first point, each starts where the previous one ends, and
    the last ends at the last point. *)
Theorem draw_segments_connected (points : list Point) (y_base : Q) (lw : Z)
    (first : Point) :
  hd_error points = Some first ->
  exists segments last,
    draw_segments points y_base lw = Ok segments
    /\ py_last points = Ok last
    /\ chain first segments last.
Proof.
  intro H.
  destruct (draw_segments_shape points y_base lw first H)
    as (segments & last & E & El & Hc & _).
  exists segments, last. auto.
Qed.

Lemma draw_segments_connected_witness :
  exists segments,
    draw_segments [(0, 50); (10, 150); (20, 160)] 100 2 = Ok segments
    /\ chain (0, 50) segments (20, 160).
Proof.
  destruct (draw_segments_connected [(0, 50); (10, 150); (20, 160)] 100 2
              (0, 50) eq_refl) as (segments & last & E & El & Hc).
  simpl in El. injection El as <-.
  exists segments. split; assumption.
Defined.

Lemma draw_segments_sound (points : list Point) (y_base : Q) (lw : Z) :
  exists segments,
    draw_segments points y_base lw = Ok segments
    /\ Forall (segment_line y_base lw) segments.
Proof.
  destruct points as [|p rest].
  - exists []. split; [reflexivity|constructor].
  - destruct (draw_segments_shape (p :: rest) y_base lw p eq_refl)
      as (segments & last & E & _ & _ & H & _).
    exists segments. split; assumption.
Qed.

(** X14.  Every line of the classifier has the chart's line width and the
    colour of its side: a green line has both ends at [y <= y_base], a red
    line has both ends at [y >= y_base]; no line straddles the baseline. *)
Theorem draw_segments_colours (points : list Point) (y_base : Q) (lw : Z) :
  exists segments,
    draw_segments points y_base lw = Ok segments
    /\ Forall (segment_line y_base lw) segments.
Proof.
  destruct points as [|first rest].
  - exists []. split; [reflexivity|constructor].
  - destruct (draw_segments_shape (first :: rest) y_base lw first eq_refl)
      as (segments & last & E & _ & _ & Hsound & _).
    exists segments. split; [exact E|exact Hsound].
Qed.



(** ** The end marker and the last segment *)





(** When the last price is exactly the previous close the two may differ:
    coming back to the baseline from below, the last segment is red and the
    marker green. *)
Example marker_differs_on_baseline :
  reduced (draw_chart 800 480 all_default [99; 100] 100)
  = Ok [ DrawText (24, 276) [Lit "High: "; Num ".2f" 100] c_grid DefaultFont;
         DrawText (24, 447) [Lit "Low: "; Num ".2f" 99] c_grid DefaultFont;
         DrawLine (24, 300) (776, 300) c_grid 2;
         DrawText (716, 280) [Lit "Prev"] c_grid DefaultFont;
         DrawLine (24, 442) (776, 300) c_down 4;
         DrawEllipse (768, 292, 784, 308) c_up ].
Proof. vm_compute. reflexivity. Qed.


(** ** One attempt of the fetch *)

(** X17.  An attempt fails exactly when [fast_info] or [history] raises; a
    failing [info] lookup never fails it.  When it succeeds, price and
    previous close are those of [fast_info] and the history is the column
    of closing prices, in order. *)
Theorem fetch_attempt_outcome (answer : YahooAnswer) :
  (fetch_attempt answer = None
   <-> ya_fast_info answer = None \/ ya_history answer = None)
  /\ (forall data,
        fetch_attempt answer = Some data ->
        exists hist,
          ya_fast_info answer = Some (data_price data, data_prev_close data)
          /\ ya_history answer = Some hist
          /\ data_history data = map bar_close hist
          /\ List.length (data_history data) = List.length hist).
Proof.
  unfold fetch_attempt.
  destruct (ya_fast_info answer) as [[current_price prev_close]|].
  - destruct (ya_history answer) as [hist|].
    + split.
      * split; [|intros [H|H]; discriminate].
        destruct (ya_info answer); discriminate.
      * intros data H. exists hist.
        destruct (ya_info answer); injection H as <-; simpl;
          rewrite length_map; auto.
    + split; [tauto|]. discriminate.
  - split; [tauto|]. discriminate.
Qed.

(** X18.  When the [info] lookup raises and the history has rows, the day's
    figures are taken from the history: the open of the last row, the
    greatest high, the least low and the total volume. *)
Theorem fetch_attempt_fallback (answer : YahooAnswer) (prices : Q * Q)
    (hist : list Bar) :
  ya_fast_info answer = Some prices ->
  ya_history answer = Some hist ->
  ya_info answer = None ->
  hist <> [] ->
  exists data last,
    fetch_attempt answer = Some data
    /\ py_last hist = Ok last
    /\ data_open data = bar_open last
    /\ (exists b, In b hist /\ data_high data = bar_high b)
    /\ (forall b, In b hist -> bar_high b <= data_high data)
    /\ (exists b, In b hist /\ data_low data = bar_low b)
    /\ (forall b, In b hist -> data_low data <= bar_low b)
    /\ data_volume data = fold_left Qplus (map bar_volume hist) 0.
Proof.
  intros Ef Eh Ei Hne. destruct prices as [current_price prev_close].
  unfold fetch_attempt. rewrite Ef, Eh, Ei.
  destruct (py_last_ok hist Hne) as (last & El & _).
  assert (Hmap : forall f : Bar -> Q, map f hist <> []).
  { intros f E. apply Hne. destruct hist; [reflexivity|discriminate]. }
  destruct (py_max_spec _ (Hmap bar_high)) as (hi & Ehi & Hhi_in & Hhi).
  destruct (py_min_spec _ (Hmap bar_low)) as (lo & Elo & Hlo_in & Hlo).
  eexists. exists last. split; [reflexivity|]. split; [exact El|]. simpl.
  split.
  { unfold last_or_zero.
    assert (E : py_last (map bar_open hist) = Ok (bar_open last)).
    { clear - El. induction hist as [|b hist IH]; [discriminate|].
      destruct hist as [|b' hist].
      - simpl in *. injection El as <-. reflexivity.
      - apply IH. exact El. }
    now rewrite E. }
  unfold max_or_zero, min_or_zero. rewrite Ehi, Elo.
  split.
  { apply in_map_iff in Hhi_in. destruct Hhi_in as (b & <- & Hb). eauto. }
  split.
  { intros b Hb. apply Hhi. apply in_map, Hb. }
  split.
  { apply in_map_iff in Hlo_in. destruct Hlo_in as (b & <- & Hb). eauto. }
  split.
  { intros b Hb. apply Hlo. apply in_map, Hb. }
  reflexivity.
Qed.

Lemma fetch_attempt_fallback_witness :
  exists data,
    fetch_attempt
      (mkYahooAnswer (Some (101, 100))
         (Some [mkBar 100 102 99 101 500; mkBar 101 103 100 102 700])
         None)
    = Some data
    /\ data_open data = 101
    /\ (forall b,
          In b [mkBar 100 102 99 101 500; mkBar 101 103 100 102 700] ->
          bar_high b <= data_high data).
Proof.
  destruct (fetch_attempt_fallback
              (mkYahooAnswer (Some (101, 100))
                 (Some [mkBar 100 102 99 101 500; mkBar 101 103 100 102 700])
                 None)
              (101, 100)
              [mkBar 100 102 99 101 500; mkBar 101 103 100 102 700]
              eq_refl eq_refl eq_refl ltac:(discriminate))
    as (data & last & E & El & Eo & _ & Hh & _).
  simpl in El. injection El as <-.
  exists data. split; [exact E|]. split; [exact Eo|exact Hh].
Defined.

(** X19.  With no usable [info] and an empty history the attempt still
    succeeds, with open, high, low and volume all zero and an empty
    history; with [info] present, a missing key gives zero. *)
Theorem fetch_attempt_defaults (answer : YahooAnswer) (prices : Q * Q)
    (hist : list Bar) :
  ya_fast_info answer = Some prices ->
  ya_history answer = Some hist ->
  (ya_info answer = None -> hist = [] ->
   fetch_attempt answer
   = Some (mkStockData (fst prices) (snd prices) 0 0 0 0 []))
  /\ (forall info,
        ya_info answer = Some info ->
        exists data,
          fetch_attempt answer = Some data
          /\ (info "open"%string = None -> data_open data = 0)
          /\ (info "dayHigh"%string = None -> data_high data = 0)
          /\ (info "dayLow"%string = None -> data_low data = 0)
          /\ (info "volume"%string = None -> data_volume data = 0)
          /\ (forall v, info "open"%string = Some v -> data_open data = v)).
Proof.
  intros Ef Eh. destruct prices as [current_price prev_close].
  unfold fetch_attempt. rewrite Ef, Eh. split.
  - intros -> ->. reflexivity.
  - intros info ->. eexists. split; [reflexivity|]. simpl.
    unfold dict_get. repeat split; intros; now rewrite H.
Qed.

Lemma fetch_attempt_defaults_witness :
  fetch_attempt (mkYahooAnswer (Some (101, 100)) (Some []) None)
  = Some (mkStockData 101 100 0 0 0 0 []).
Proof.
  apply (proj1 (fetch_attempt_defaults
                  (mkYahooAnswer (Some (101, 100)) (Some []) None)
                  (101, 100) [] eq_refl eq_refl));
    reflexivity.
Defined.

(** ** The image as a whole *)

Lemma count_ellipses_app (l1 l2 : list DrawPrimitive) :
  count_ellipses (l1 ++ l2) = (count_ellipses l1 + count_ellipses l2)%nat.
Proof.
  induction l1 as [|op l1 IH]; [reflexivity|].
  destruct op; simpl; rewrite IH; reflexivity.
Qed.

Lemma count_ellipses_dashboard (width height : Z)
    (ops : list DrawPrimitive) :
  Forall (dashboard_primitive width height) ops -> count_ellipses ops = 0%nat.
Proof.
  induction 1 as [|op ops Hop _ IH]; [reflexivity|].
  destruct op; simpl in *; [exact IH|exact IH|contradiction].
Qed.

Lemma count_ellipses_segments (y_base : Q) (lw : Z)
    (ops : list DrawPrimitive) :
  Forall (segment_line y_base lw) ops -> count_ellipses ops = 0%nat.
Proof.
  induction 1 as [|op ops Hop _ IH]; [reflexivity|].
  destruct op; simpl in *; [contradiction|exact IH|contradiction].
Qed.

Lemma count_ellipses_chart (width height : Z) (fonts : Fonts)
    (history : list Q) (prev_close : Q) :
  exists chart,
    draw_chart width height fonts history prev_close = Ok chart
    /\ count_ellipses chart
       = if (1 <? List.length history)%nat then 1%nat else 0%nat.
Proof.
  destruct (1 <? List.length history)%nat eqn:Hlong.
  - destruct (draw_chart_long width height fonts history prev_close Hlong)
      as (min_p & max_p & y_base & points & segments & last_pt & last_price
          & _ & _ & _ & Es & _ & _ & Ec).
    eexists. split; [exact Ec|].
    destruct (draw_segments_sound points y_base (line_width_for width))
      as (segments' & Es' & Hs).
    rewrite Es in Es'. injection Es' as <-.
    rewrite !count_ellipses_app, (count_ellipses_segments _ _ _ Hs).
    reflexivity.
  - exists []. split; [|reflexivity].
    apply draw_chart_short. apply Nat.ltb_ge, Hlong.
Qed.

(** X20.  The render always returns an image with the white background and
    the size of the display: the resolution as it is, or transposed when
    the orientation is ["vertical"]. *)
Theorem generate_image_size (w : World) (settings : Settings)
    (device_config : DeviceConfig) :
  exists image,
    generate_image w settings device_config = Ok image
    /\ im_background image = c_bg
    /\ (get_orientation device_config = "vertical"%string ->
        im_size image
        = (snd (get_resolution device_config),
           fst (get_resolution device_config)))
    /\ (get_orientation device_config <> "vertical"%string ->
        im_size image = get_resolution device_config).
Proof.
  assert (H : exists image,
             generate_image w settings device_config = Ok image
             /\ im_background image = c_bg
             /\ im_size image = oriented_dimensions device_config).
  { destruct (get_stock_data w (settings_get (settings_ticker settings) "TSLA")
                (settings_get (settings_period settings) "1d")
                (settings_get (settings_interval settings) "15m"))
      as [data|] eqn:E.
    - destruct (generate_image_data w settings device_config data E)
        as (dashboard & chart & _ & _ & _ & Eg).
      eexists. split; [exact Eg|]. split; [reflexivity|].
      simpl. now destruct (oriented_dimensions device_config).
    - eexists. split; [apply generate_image_no_data, E|]. auto. }
  destruct H as (image & Eg & Eb & Es).
  exists image. split; [exact Eg|]. split; [exact Eb|].
  rewrite Es. unfold oriented_dimensions. split; intro Ho.
  - rewrite Ho. reflexivity.
  - apply String.eqb_neq in Ho. now rewrite Ho.
Qed.

(** X21.  The end marker is the only ellipse of the image: there is exactly
    one when the fetch succeeds with a history of two samples or more, and
    none otherwise. *)
Theorem generate_image_marker_count (w : World) (settings : Settings)
    (device_config : DeviceConfig) :
  exists image,
    generate_image w settings device_config = Ok image
    /\ count_ellipses (im_draw image)
       = match get_stock_data w
                 (settings_get (settings_ticker settings) "TSLA")
                 (settings_get (settings_period settings) "1d")
                 (settings_get (settings_interval settings) "15m") with
         | Some data =>
             if (1 <? List.length (data_history data))%nat
             then 1%nat else 0%nat
         | None => 0%nat
         end.
Proof.
  destruct (get_stock_data w (settings_get (settings_ticker settings) "TSLA")
              (settings_get (settings_period settings) "1d")
              (settings_get (settings_interval settings) "15m"))
    as [data|] eqn:E.
  - destruct (generate_image_data w settings device_config data E)
      as (dashboard & chart & _ & Hd & Ec & Eg).
    eexists. split; [exact Eg|]. simpl.
    destruct (count_ellipses_chart
                (fst (oriented_dimensions device_config))
                (snd (oriented_dimensions device_config))
                (load_fonts w (snd (oriented_dimensions device_config)))
                (data_history data) (data_prev_close data))
      as (chart' & Ec' & Hc).
    rewrite Ec in Ec'. injection Ec' as <-.
    rewrite count_ellipses_app, (count_ellipses_dashboard _ _ _ Hd), Hc.
    reflexivity.
  - eexists. split; [apply generate_image_no_data, E|]. reflexivity.
Qed.

(** X22.  The fonts are loaded all or none: the five TrueType fonts at
    their sizes when both font files are there, the built-in font for all
    five as soon as one file is missing. *)
Theorem load_fonts_all_or_none (w : World) (height : Z) :
  (font_exists w font_path_bold = true ->
   font_exists w font_path_reg = true ->
   load_fonts w height
   = mkFonts (TrueType font_path_bold (scaled height 0.20))
       (TrueType font_path_bold (scaled height 0.125))
       (TrueType font_path_reg (scaled height 0.06))
       (TrueType font_path_reg (scaled height 0.04))
       (TrueType font_path_reg (scaled height 0.033)))
  /\ (font_exists w font_path_bold = false
      \/ font_exists w font_path_reg = false ->
      load_fonts w height = all_default).
Proof.
  unfold load_fonts, truetype. split.
  - intros -> ->. reflexivity.
  - intros [H|H]; rewrite H.
    + reflexivity.
    + destruct (font_exists w font_path_bold); reflexivity.
Qed.

Lemma load_fonts_all_or_none_witness :
  load_fonts
    (mkWorld (fun _ _ _ _ => None)
       (fun path => String.eqb path font_path_bold) "Mon 10:00"
       (fun _ _ => 90))
    480
  = all_default.
Proof.
  apply (proj2 (load_fonts_all_or_none _ 480)). right. reflexivity.
Defined.

(** X23.  For a positive previous close the percentage has the sign of the
    change: it is non-negative exactly when the price is at or above the
    previous close, which is when the dashboard prints the ["+"] sign. *)
Theorem change_pct_sign (current_price prev_close : Q) :
  0 < prev_close ->
  exists pct,
    change_pct current_price prev_close = Ok pct
    /\ pct * prev_close == (current_price - prev_close) * 100
    /\ (0 <= pct <-> 0 <= change_amt current_price prev_close)
    /\ (0 <= change_amt current_price prev_close
        <-> prev_close <= current_price).
Proof.
  intro Hp.
  exists (change_amt current_price prev_close / prev_close * 100).
  split; [apply change_pct_nonzero; lra|].
  unfold change_amt.
  set (pct := (current_price - prev_close) / prev_close * 100).
  assert (E : pct * prev_close == (current_price - prev_close) * 100)
    by (unfold pct; field; lra).
  split; [exact E|]. split; split; intro H; nra.
Qed.

Lemma change_pct_sign_witness :
  exists pct, change_pct 99 100 = Ok pct /\ ~ 0 <= pct.
Proof.
  destruct (change_pct_sign 99 100) as (pct & E & _ & H & _); [reflexivity|].
  exists pct. split; [exact E|]. intro Hpos. apply H in Hpos.
  revert Hpos. apply Qlt_not_le. reflexivity.
Defined.

(** ** A flat history *)

Lemma series_range_flat (history : list Q) (prev_close : Q) :
  history <> [] -> (forall v, In v history -> v == prev_close) ->
  exists min_p max_p,
    series_range history prev_close = Ok (min_p, max_p)
    /\ min_p == prev_close /\ max_p == prev_close.
Proof.
  intros Hne Hflat.
  destruct (py_min_spec history Hne) as (lo & Elo & Hlo_in & _).
  destruct (py_max_spec history Hne) as (hi & Ehi & Hhi_in & _).
  exists (py_min2 lo prev_close), (py_max2 hi prev_close).
  split; [unfold series_range; rewrite Elo, Ehi; reflexivity|].
  pose proof (Hflat lo Hlo_in) as A. pose proof (Hflat hi Hhi_in) as B.
  destruct (py_min2_spec lo prev_close) as ([-> | ->] & _);
    destruct (py_max2_spec hi prev_close) as ([-> | ->] & _);
    split; (assumption || reflexivity).
Qed.

(** X24.  When every sample equals the previous close the value range is
    degenerate: the baseline and every point are at mid height of the chart
    rectangle, every segment is green and so is the marker. *)
Theorem flat_history_chart (width height : Z) (fonts : Fonts)
    (history : list Q) (prev_close : Q) :
  (2 <= List.length history)%nat ->
  (forall v, In v history -> v == prev_close) ->
  let y_mid :=
    (inject_Z (chart_y_end height) + inject_Z (chart_y_start height)) / 2 in
  exists min_p max_p points last_pt last_price,
    series_range history prev_close = Ok (min_p, max_p)
    /\ project_points history min_p max_p
         (inject_Z (chart_x_start width)) (inject_Z (chart_x_end width))
         (inject_Z (chart_y_start height)) (inject_Z (chart_y_end height))
       = Ok points
    /\ Forall (fun p : Point => snd p = y_mid) points
    /\ draw_chart width height fonts history prev_close
       = Ok (chart_frame width height fonts min_p max_p y_mid
             ++ polyline points c_up (line_width_for width)
             ++ [end_marker width last_pt last_price prev_close])
    /\ primitive_fill (end_marker width last_pt last_price prev_close) = c_up.
Proof.
  intros Hlen Hflat y_mid.
  assert (Hlong : (1 <? List.length history)%nat = true)
    by (apply Nat.ltb_lt; lia).
  pose proof (long_history_nonempty history Hlong) as Hne.
  destruct (draw_chart_long width height fonts history prev_close Hlong)
    as (min_p & max_p & y_base & points & segments & last_pt & last_price
        & Er & Ey & Ep & Es & El & Eh & Ec).
  destruct (series_range_flat history prev_close Hne Hflat)
    as (min_p' & max_p' & Er' & Hmin & Hmax).
  rewrite Er in Er'. injection Er' as <- <-.
  assert (Hdeg : min_p == max_p) by (rewrite Hmin, Hmax; reflexivity).
  rewrite (map_range_degenerate _ _ _ _ _ Hdeg) in Ey.
  injection Ey as <-. fold y_mid in Es, Ec.
  destruct (project_points_ok history min_p max_p
              (inject_Z (chart_x_start width)) (inject_Z (chart_x_end width))
              (inject_Z (chart_y_start height)) (inject_Z (chart_y_end height)))
    as (points' & Ep' & Hp).
  rewrite Ep in Ep'. injection Ep' as <-.
  assert (Hmid : Forall (fun p : Point => snd p = y_mid) points).
  { clear - Hp Hdeg. induction Hp as [|price p history points E _ IH].
    - constructor.
    - constructor; [|exact IH].
      rewrite (map_range_degenerate _ _ _ _ _ Hdeg) in E.
      now injection E. }
  exists min_p, max_p, points, last_pt, last_price.
  split; [exact Er|]. split; [exact Ep|]. split; [exact Hmid|].
  assert (Hup : draw_segments points y_mid (line_width_for width)
                = Ok (polyline points c_up (line_width_for width))).
  { apply draw_segments_all_up.
    apply (Forall_impl _ (P := fun p : Point => snd p = y_mid));
      [|exact Hmid].
    intros p ->. apply Qle_refl. }
  rewrite Es in Hup. injection Hup as ->.
  split; [exact Ec|].
  apply (proj1 (marker_fill width last_pt last_price prev_close)).
  rewrite (Hflat last_price (py_last_in _ _ Eh)). apply Qle_refl.
Qed.

Lemma flat_history_chart_witness :
  exists min_p max_p points last_pt last_price,
    draw_chart 800 480 all_default [100; 100; 100] 100
    = Ok (chart_frame 800 480 all_default min_p max_p
            ((inject_Z (chart_y_end 480) + inject_Z (chart_y_start 480)) / 2)
          ++ polyline points c_up (line_width_for 800)
          ++ [end_marker 800 last_pt last_price 100]).
Proof.
  destruct (flat_history_chart 800 480 all_default [100; 100; 100] 100)
    as (min_p & max_p & points & last_pt & last_price & _ & _ & _ & Ec & _).
  - simpl. lia.
  - intros v [<-|[<-|[<-|[]]]]; reflexivity.
  - exists min_p, max_p, points, last_pt, last_price. exact Ec.
Defined.
